(** * SocioBerries API: the [/calculate_berries] endpoint of [src/main.py]

    A shallow embedding of the request handler and of the helpers it calls,
    followed by the properties of the aggregation, of the two inference
    wrappers and of the error mapping.

    - JSON payloads are the Python values [json.loads] builds: [None],
      [bool], unbounded [int], binary64 [float], [str], [list], [dict].
      A [string] holds the UTF-8 encoding of a [str].
    - Python exceptions are values of [exn]; pure code runs in [result],
      code that talks to the network or to a model runs in [io], which also
      records the calls that were made.
    - The two upstream services and the two loaded models are the
      parameters of the development. *)

From Stdlib Require Import ZArith String Ascii List Bool Lia.
From Stdlib Require Import Floats.SpecFloat.
From stdpp Require Import base option list gmap strings.

#[local] Set Warnings "-register-all".
#[local] Open Scope string_scope.
#[local] Open Scope list_scope.
#[local] Open Scope Z_scope.

(** ** Python values *)

(** A Python [float]: IEEE 754 binary64. *)
Definition prec : Z := 53.
Definition emax : Z := 1024.

Inductive json : Type :=
| JNull
| JBool (b : bool)
| JInt (n : Z)
| JFloat (f : spec_float)
| JStr (s : string)
| JList (items : list json)
| JDict (d : gmap string json).

(** What [model.predict] returns: a numpy array, or the [np.float64] left
    after indexing it. Empty arrays of any rank are [NdArray []]. *)
Inductive ndarray : Type :=
| NdItem (x : spec_float)
| NdArray (xs : list ndarray).

(** The values that end up in a feature row. *)
Inductive pyobj : Type :=
| PyJ (j : json)
| PyNd (a : ndarray).

(** ** Exceptions and the two monads *)

Inductive exn : Type :=
| KeyError (key : string)
| TypeError
| AttributeError
| ValueError
| OverflowError
| ZeroDivisionError
| IndexError
| ValidationError
| JSONDecodeError
| TransportError
| HTTPStatusError (status_code : Z).

Inductive result (A : Type) : Type :=
| Ok (a : A)
| Raise (e : exn).
Arguments Ok {A} a.
Arguments Raise {A} e.

#[export] Instance result_ret : MRet result := fun _ a => Ok a.
#[export] Instance result_bind : MBind result := fun _ _ f m =>
  match m with
  | Ok a => f a
  | Raise e => Raise e
  end.

Inductive fetcher : Type := UserPosts | CoinBalances.
Inductive model : Type := Credibility | Influencer.

(** The calls a request makes, in the order it makes them. A call of a
    model is recorded with the row its feature array was built from. *)
Inductive event : Type :=
| EvGet (f : fetcher) (address : string)
| EvPredict (m : model) (features : list pyobj).

Record io (A : Type) : Type := IO { trace : list event; outcome : result A }.
Arguments IO {A} trace outcome.
Arguments trace {A} i.
Arguments outcome {A} i.

#[export] Instance io_ret : MRet io := fun _ a => IO [] (Ok a).
#[export] Instance io_bind : MBind io := fun _ _ f m =>
  match outcome m with
  | Ok a => IO (trace m ++ trace (f a)) (outcome (f a))
  | Raise e => IO (trace m) (Raise e)
  end.

Definition lift {A : Type} (r : result A) : io A := IO [] r.
Definition emit (e : event) : io unit := IO [e] (Ok tt).

(** ** Python builtins used by the handler *)

(** [obj[key]] with a [str] key. Only a [dict] accepts it. *)
Definition subscript (obj : json) (key : string) : result json :=
  match obj with
  | JDict d =>
      match d !! key with
      | Some v => Ok v
      | None => Raise (KeyError key)
      end
  | _ => Raise TypeError
  end.

(** [obj.get(key, default)]. *)
Definition dict_get (obj : json) (key : string) (default : json) : result json :=
  match obj with
  | JDict d =>
      match d !! key with
      | Some v => Ok v
      | None => Ok default
      end
  | _ => Raise AttributeError
  end.

(** [s.endswith(suffix)] on two [str]. *)
Definition endswith (s suffix : string) : bool :=
  let n := String.length s in
  let m := String.length suffix in
  (m <=? n)%nat && String.eqb (substring (n - m) m s) suffix.

(** [obj.endswith(suffix)]: only [str] has the method. *)
Definition str_endswith (obj : json) (suffix : string) : result bool :=
  match obj with
  | JStr s => Ok (endswith s suffix)
  | _ => Raise AttributeError
  end.

(** [obj == s] for a [str] literal [s]. *)
Definition eq_str (obj : json) (s : string) : bool :=
  match obj with
  | JStr s' => String.eqb s' s
  | _ => false
  end.

(** The characters of a [str], each with the bytes that encode it: a byte
    that is not a continuation byte starts a character. *)
Definition is_continuation (c : ascii) : bool :=
  let n := nat_of_ascii c in
  ((128 <=? n) && (n <=? 191))%nat.

Fixpoint split_chars (s : list ascii) : list (list ascii) :=
  match s with
  | [] => []
  | c :: rest =>
      match split_chars rest with
      | (c' :: g) :: gs =>
          if is_continuation c' then (c :: c' :: g) :: gs else [c] :: (c' :: g) :: gs
      | gs => [c] :: gs
      end
  end.

Definition chars (s : string) : list json :=
  (λ g, JStr (string_of_list_ascii g)) <$> split_chars (list_ascii_of_string s).

(** The items a [for] loop visits. A [dict] yields its keys; their order
    plays no part below, every key being a [str]. *)
Definition py_iter (obj : json) : result (list json) :=
  match obj with
  | JList items => Ok items
  | JDict d => Ok (JStr <$> (map_to_list d).*1)
  | JStr s => Ok (chars s)
  | _ => Raise TypeError
  end.

(** [len(obj)]. *)
Definition py_len (obj : json) : result Z :=
  match obj with
  | JList items => Ok (Z.of_nat (length items))
  | JDict d => Ok (Z.of_nat (size d))
  | JStr s => Ok (Z.of_nat (length (split_chars (list_ascii_of_string s))))
  | _ => Raise TypeError
  end.

(** [int(s)] for a [str], as CPython 3.11 does it. The text is first brought
    to ASCII: a character below 127 stays, a Unicode space becomes a blank,
    a Unicode decimal digit (Unicode 14.0) becomes its ASCII digit, anything
    else becomes ["?"]. Then: surrounding C whitespace, an optional sign,
    decimal digits with single underscores between them, at most 4300
    digits. *)
Definition code_point (g : list ascii) : N :=
  match N_of_ascii <$> g with
  | [a] => if a <? 128 then a else 65533
  | [a; b] =>
      if (192 <=? a) && (a <? 224) then (a - 192) * 64 + (b - 128) else 65533
  | [a; b; c] =>
      if (224 <=? a) && (a <? 240)
      then (a - 224) * 4096 + (b - 128) * 64 + (c - 128) else 65533
  | [a; b; c; d] =>
      if (240 <=? a) && (a <? 248)
      then (a - 240) * 262144 + (b - 128) * 4096 + (c - 128) * 64 + (d - 128)
      else 65533
  | _ => 65533
  end%N.

Definition unicode_spaces : list N :=
  [133; 160; 5760; 8192; 8193; 8194; 8195; 8196; 8197; 8198; 8199; 8200; 8201; 8202;
   8232; 8233; 8239; 8287; 12288]%N.

(** The code points of the digits zero; the nine that follow each are the
    digits one to nine. *)
Definition decimal_zeros : list N :=
  [48; 1632; 1776; 1984; 2406; 2534; 2662; 2790; 2918; 3046; 3174; 3302; 3430; 3558;
   3664; 3792; 3872; 4160; 4240; 6112; 6160; 6470; 6608; 6784; 6800; 6992; 7088; 7232;
   7248; 42528; 43216; 43264; 43472; 43504; 43600; 44016; 65296; 66720; 68912; 69734;
   69872; 69942; 70096; 70384; 70736; 70864; 71248; 71360; 71472; 71904; 72016; 72784;
   73040; 73120; 92768; 92864; 93008; 120782; 120792; 120802; 120812; 120822; 123200;
   123632; 125264; 130032]%N.

Definition to_ascii (cp : N) : ascii :=
  if (cp <? 127)%N then ascii_of_N cp
  else if existsb (N.eqb cp) unicode_spaces then " "%char
  else
    match List.find (λ zero, (zero <=? cp) && (cp <? zero + 10))%N decimal_zeros with
    | Some zero => ascii_of_N (48 + (cp - zero))
    | None => "?"%char
    end.

Definition is_space (c : ascii) : bool :=
  let n := nat_of_ascii c in
  ((9 <=? n) && (n <=? 13) || (n =? 32))%nat.

Definition digit_of (c : ascii) : option Z :=
  let n := nat_of_ascii c in
  if ((48 <=? n) && (n <=? 57))%nat then Some (Z.of_nat (n - 48)) else None.

Fixpoint lstrip (s : list ascii) : list ascii :=
  match s with
  | c :: s' => if is_space c then lstrip s' else s
  | [] => []
  end.

Definition strip (s : list ascii) : list ascii := rev (lstrip (rev (lstrip s))).

Fixpoint parse_digits (acc : Z) (after_underscore : bool) (s : list ascii) : option Z :=
  match s with
  | [] => if after_underscore then None else Some acc
  | c :: s' =>
      if Ascii.eqb c "_"%char then
        if after_underscore then None else parse_digits acc true s'
      else
        match digit_of c with
        | Some d => parse_digits (10 * acc + d) false s'
        | None => None
        end
  end.

Fixpoint count_digits (s : list ascii) : nat :=
  match s with
  | [] => 0
  | c :: s' => if Ascii.eqb c "_"%char then count_digits s' else S (count_digits s')
  end.

Definition max_str_digits : nat := 4300.

Definition parse_int (s : string) : option Z :=
  let text := (λ g, to_ascii (code_point g)) <$> split_chars (list_ascii_of_string s) in
  let body := strip text in
  let '(negative, digits) :=
    match body with
    | c :: rest =>
        if Ascii.eqb c "-"%char then (true, rest)
        else if Ascii.eqb c "+"%char then (false, rest)
        else (false, body)
    | [] => (false, body)
    end in
  match digits with
  | [] => None
  | c :: _ =>
      if Ascii.eqb c "_"%char then None
      else if (max_str_digits <? count_digits digits)%nat then None
      else (fun n => if negative : bool then - n else n) <$> parse_digits 0 false digits
  end.

(** [int(x)] for a [float]: truncation towards zero. *)
Definition float_trunc (f : spec_float) : result Z :=
  match f with
  | S754_zero _ => Ok 0
  | S754_infinity _ => Raise OverflowError
  | S754_nan => Raise ValueError
  | S754_finite s m e =>
      let magnitude := if 0 <=? e then Z.pos m * 2 ^ e else Z.pos m / 2 ^ (- e) in
      Ok (if s then - magnitude else magnitude)
  end.

(** [int(obj)]. *)
Definition py_int (obj : json) : result Z :=
  match obj with
  | JInt n => Ok n
  | JBool b => Ok (if b then 1 else 0)
  | JFloat f => float_trunc f
  | JStr s =>
      match parse_int s with
      | Some n => Ok n
      | None => Raise ValueError
      end
  | _ => Raise TypeError
  end.

(** [a / b] on two [int]: the exact quotient rounded to the nearest
    binary64, [OverflowError] when it is out of range. *)
Definition int_true_divide (a b : Z) : result spec_float :=
  if b =? 0 then Raise ZeroDivisionError
  else if a =? 0 then Ok (S754_zero (b <? 0))
  else
    match SFdiv prec emax
            (S754_finite (a <? 0) (Z.to_pos (Z.abs a)) 0)
            (S754_finite (b <? 0) (Z.to_pos (Z.abs b)) 0) with
    | S754_infinity _ => Raise OverflowError
    | q => Ok q
    end.

(** [float(n)] for a small [int] literal, to write expected values. *)
Definition float_of_int (n : Z) : spec_float := binary_normalize prec emax n 0 false.

(** [for x in items: s = body(s, x)], stopping at the first exception. *)
Fixpoint for_each {S : Type} (body : S → json → result S) (items : list json) (s : S)
  : result S :=
  match items with
  | [] => Ok s
  | x :: rest => s' ← body s x; for_each body rest s'
  end.

(** ** The request handler *)

Record BerryCalculationInput : Type := { account_address : string }.

(** What the handler hands to the framework: the 200 body, or the
    [HTTPException] raised by one of the three [except] clauses. [detail]
    keeps the fixed part of the message, without the text of the exception
    appended to it. *)
Inductive response : Type :=
| BerryCalculationOutput (credibility_weight berries : spec_float)
| HTTPException (status_code : Z) (detail : string).

(** What an upstream service answers to one GET: no answer, or a status
    with a body that [response.json()] parses or not. *)
Inductive http_outcome : Type :=
| NoResponse
| Response (status_code : Z) (body : option json).

(** The local variables of the first loop. *)
Record totals : Type := Totals {
  total_followers : Z;
  total_likes : Z;
  total_comments : Z;
  total_posts : Z
}.

Definition profile_suffix : string := "::SocialMediaPlatform::Profile".
Definition user_posts_suffix : string := "::SocialMediaPlatform::UserPosts".

(** httpx: [raise_for_status] lets the 2xx statuses through and raises
    [HTTPStatusError] for every other one. *)
Definition is_success (status_code : Z) : bool :=
  (200 <=? status_code) && (status_code <=? 299).

(** Body of [for post in resource['data']['posts']]. *)
Definition process_post (t : totals) (post : json) : result totals :=
  like_count ← subscript post "like_count";
  likes ← py_int like_count;
  comments ← subscript post "comments";
  n ← py_len comments;
  Ok (Totals (total_followers t) (total_likes t + likes) (total_comments t + n)
        (total_posts t + 1)).

(** Body of [for resource in user_posts_data['resources']]. *)
Definition process_resource (t : totals) (resource : json) : result totals :=
  ty ← subscript resource "type";
  is_profile ← str_endswith ty profile_suffix;
  if is_profile : bool then
    data ← subscript resource "data";
    followers_count ← subscript data "followers_count";
    followers ← py_int followers_count;
    Ok (Totals (total_followers t + followers) (total_likes t) (total_comments t)
          (total_posts t))
  else
    ty' ← subscript resource "type";
    is_posts ← str_endswith ty' user_posts_suffix;
    if is_posts : bool then
      data ← subscript resource "data";
      posts ← subscript data "posts";
      items ← py_iter posts;
      for_each process_post items t
    else Ok t.

(** Lines 78 to 90: the four totals of a user-posts payload. *)
Definition aggregate_user_posts (user_posts_data : json) : result totals :=
  resources ← subscript user_posts_data "resources";
  items ← py_iter resources;
  for_each process_resource items (Totals 0 0 0 0).

(** Lines 93 and 94: [total / total_posts if total_posts > 0 else 0]. *)
Definition average_per_day (total total_posts : Z) : result json :=
  if 0 <? total_posts then q ← int_true_divide total total_posts; Ok (JFloat q)
  else Ok (JInt 0).

(** Lines 101 to 104: the loop leaves at the first entry whose symbol is
    ["APT"]. *)
Fixpoint scan_balances (balances : list json) (onchain_net_worth : json) : result json :=
  match balances with
  | [] => Ok onchain_net_worth
  | balance :: rest =>
      metadata ← subscript balance "metadata";
      symbol ← subscript metadata "symbol";
      if eq_str symbol "APT" then dict_get balance "amount_in_usd" (JInt 0)
      else scan_balances rest onchain_net_worth
  end.

(** Lines 100 to 104. *)
Definition extract_onchain_net_worth (coin_balances : json) : result json :=
  latest_balances ← subscript coin_balances "latest_balances";
  items ← py_iter latest_balances;
  scan_balances items (JInt 0).

(** [prediction.ndim]. *)
Fixpoint ndim (a : ndarray) : Z :=
  match a with
  | NdItem _ => 0
  | NdArray [] => 1
  | NdArray (x :: _) => 1 + ndim x
  end.

(** [a[0]]. *)
Definition index0 (a : ndarray) : result ndarray :=
  match a with
  | NdArray (x :: _) => Ok x
  | _ => Raise IndexError
  end.

(** [prediction[0] if prediction.ndim == 1 else prediction[0][0]]. *)
Definition reduce_prediction (prediction : ndarray) : result ndarray :=
  if ndim prediction =? 1 then index0 prediction
  else row ← index0 prediction; index0 row.

(** Lookup in the [berries_input] dict built by the handler. *)
Definition input_item (input_data : gmap string pyobj) (key : string) : result pyobj :=
  match input_data !! key with
  | Some v => Ok v
  | None => Raise (KeyError key)
  end.

(** Lines 55 to 63: the items of the row of the influencer feature matrix. *)
Definition berries_features (input_data : gmap string pyobj) : result (list pyobj) :=
  followers ← input_item input_data "followers";
  likes ← input_item input_data "likes";
  comments ← input_item input_data "comments";
  ads ← input_item input_data "ads_purchased_from_profile";
  average_likes ← input_item input_data "average_likes_per_day";
  average_comments ← input_item input_data "average_comments_per_day";
  credibility_weight ← input_item input_data "credibility_weight";
  Ok [followers; likes; comments; ads; average_likes; average_comments;
      credibility_weight].

(** The shape numpy finds for a value: [[]] for a scalar, the length
    followed by the common shape of the items for a list or an array, none
    when the items differ in shape. A [str] and a [dict] are scalars. *)
Definition common_shape (shapes : list (option (list nat))) : option (list nat) :=
  match shapes with
  | [] => Some [0%nat]
  | first :: rest =>
      shape ← first;
      if forallb (λ o, match o with
                       | Some shape' => bool_decide (shape' = shape)
                       | None => false
                       end) rest
      then Some (length shapes :: shape)
      else None
  end.

Fixpoint json_shape (j : json) : option (list nat) :=
  match j with
  | JList items => common_shape (json_shape <$> items)
  | _ => Some []
  end.

Fixpoint nd_shape (a : ndarray) : option (list nat) :=
  match a with
  | NdItem _ => Some []
  | NdArray xs => common_shape (nd_shape <$> xs)
  end.

Definition obj_shape (o : pyobj) : option (list nat) :=
  match o with
  | PyJ j => json_shape j
  | PyNd a => nd_shape a
  end.

(** [np.array([row])], numpy 1.24 and later: a row whose items differ in
    shape, such as a list or an array next to a number, raises
    [ValueError]. Otherwise the array is built; it is written as the row it
    was built from, and holds the items under the type numpy gives the
    array. *)
Definition np_array (row : list pyobj) : result (list pyobj) :=
  match common_shape (obj_shape <$> row) with
  | Some _ => Ok row
  | None => Raise ValueError
  end.

(** Validation of one [float] field of the response model. *)
Definition validate_float (value : ndarray) : result spec_float :=
  match value with
  | NdItem x => Ok x
  | NdArray _ => Raise ValidationError
  end.

(** [m.predict(features)] on the array built from the row [features],
    [which] telling the two models apart in the record of calls. *)
Definition predict (which : model) (m : list pyobj → result ndarray) (features : list pyobj)
  : io ndarray :=
  emit (EvPredict which features);;
  lift (m features).

Section Service.

(** The two external services and the two models loaded at startup. A model
    is given by what its [predict] answers on the array built from a row. *)
Context (upstream : fetcher → string → http_outcome).
Context (credibility_model influencer_model : list pyobj → result ndarray).

Definition http_get (f : fetcher) (address : string) : io json :=
  emit (EvGet f address);;
  lift match upstream f address with
       | NoResponse => Raise TransportError
       | Response status_code body =>
           if is_success status_code then
             match body with
             | Some j => Ok j
             | None => Raise JSONDecodeError
             end
           else Raise (HTTPStatusError status_code)
       end.

Definition fetch_user_posts (address : string) : io json := http_get UserPosts address.

Definition fetch_coin_balances (address : string) : io json := http_get CoinBalances address.

Definition calculate_credibility_weight (onchain_net_worth : json) (followers_of_followers : Z)
  : io ndarray :=
  features ← lift (np_array [PyJ onchain_net_worth; PyJ (JInt followers_of_followers)]);
  prediction ← predict Credibility credibility_model features;
  lift (reduce_prediction prediction).

Definition calculate_berries (input_data : gmap string pyobj) : io ndarray :=
  row ← lift (berries_features input_data);
  features ← lift (np_array row);
  prediction ← predict Influencer influencer_model features;
  lift (reduce_prediction prediction).

(** The [try] block of the handler. *)
Definition calculate_berries_try (input : BerryCalculationInput) : io response :=
  let followers_of_followers := 5000 in
  let ads_purchased_from_profile := 10 in
  user_posts_data ← fetch_user_posts (account_address input);
  t ← lift (aggregate_user_posts user_posts_data);
  average_likes_per_day ← lift (average_per_day (total_likes t) (total_posts t));
  average_comments_per_day ← lift (average_per_day (total_comments t) (total_posts t));
  coin_balances ← fetch_coin_balances (account_address input);
  onchain_net_worth ← lift (extract_onchain_net_worth coin_balances);
  credibility_weight ← calculate_credibility_weight onchain_net_worth followers_of_followers;
  let berries_input : gmap string pyobj :=
    <["followers" := PyJ (JInt (total_followers t))]> (
    <["likes" := PyJ (JInt (total_likes t))]> (
    <["comments" := PyJ (JInt (total_comments t))]> (
    <["ads_purchased_from_profile" := PyJ (JInt ads_purchased_from_profile)]> (
    <["average_likes_per_day" := PyJ average_likes_per_day]> (
    <["average_comments_per_day" := PyJ average_comments_per_day]> (
    <["credibility_weight" := PyNd credibility_weight]> ∅)))))) in
  berries ← calculate_berries berries_input;
  lift (cw ← validate_float credibility_weight;
        b ← validate_float berries;
        Ok (BerryCalculationOutput cw b)).

(** The three [except] clauses. *)
Definition handle (e : exn) : response :=
  match e with
  | HTTPStatusError status_code => HTTPException status_code "Error fetching external data"
  | KeyError _ => HTTPException 500 "Unexpected data structure in external API response"
  | _ => HTTPException 500 "Internal Server Error"
  end.

(** Lines 67 to 136: the calls made and the response sent. *)
Definition calculate_berries_endpoint (input : BerryCalculationInput)
  : list event * response :=
  let run := calculate_berries_try input in
  (trace run,
   match outcome run with
   | Ok r => r
   | Raise e => handle e
   end).

End Service.

(** The stages of a request stay folded when a proof simplifies the handler. *)
Arguments aggregate_user_posts : simpl never.
Arguments average_per_day : simpl never.
Arguments extract_onchain_net_worth : simpl never.
Arguments reduce_prediction : simpl never.
Arguments berries_features : simpl never.
Arguments np_array : simpl never.
Arguments is_success : simpl never.

(** ** Sample payloads and stub services *)

Module Samples.

(** A JSON object literal. *)
Definition obj (fields : list (string * json)) : json := JDict (list_to_map fields).

Definition profile (followers_count : json) : json :=
  obj [("type", JStr "0x1::SocialMediaPlatform::Profile");
       ("data", obj [("followers_count", followers_count)])].

Definition post (like_count : json) (comments : list json) : json :=
  obj [("like_count", like_count); ("comments", JList comments)].

Definition user_posts (posts : list json) : json :=
  obj [("type", JStr "0x1::SocialMediaPlatform::UserPosts");
       ("data", obj [("posts", JList posts)])].

Definition payload (resources : list json) : json := obj [("resources", JList resources)].

Definition balance (symbol : string) (amount_in_usd : json) : json :=
  obj [("metadata", obj [("symbol", JStr symbol)]); ("amount_in_usd", amount_in_usd)].

Definition balance_without_amount (symbol : string) : json :=
  obj [("metadata", obj [("symbol", JStr symbol)])].

Definition balances (entries : list json) : json := obj [("latest_balances", JList entries)].

Definition comment : json := obj [("content", JStr "gm")].

(** One profile with 120 followers, one posts resource with two posts. *)
Definition one_profile_two_posts : json :=
  payload [profile (JInt 120);
           user_posts [post (JInt 10) [comment; comment; comment];
                       post (JInt 20) [comment]]].

Definition one_apt_500 : json := balances [balance "APT" (JInt 500)].

Definition two_profiles : json := payload [profile (JInt 5); profile (JInt 7)].

Definition posts_only : json :=
  payload [user_posts [post (JStr "10") [comment]]; user_posts [post (JInt 20) []]].

(** The first ["APT"] entry has no amount, a later one has. *)
Definition apt_without_amount_first : list json :=
  [balance "USDC" (JInt 3); balance_without_amount "APT"; balance "APT" (JInt 7)].

(** A profile resource whose [data] is [null]. *)
Definition profile_with_null_data : json :=
  obj [("type", JStr "0x1::SocialMediaPlatform::Profile"); ("data", JNull)].

(** A profile with a follower count that is no number, then a resource
    without a type tag. *)
Definition bad_count_then_no_type : json := payload [profile (JStr "many"); obj []].

Definition alice : BerryCalculationInput := {| account_address := "0xa11ce" |}.

(** Services that answer 200 with the given payloads. *)
Definition serve (posts_payload balances_payload : json) (f : fetcher) (_ : string)
  : http_outcome :=
  match f with
  | UserPosts => Response 200 (Some posts_payload)
  | CoinBalances => Response 200 (Some balances_payload)
  end.

(** Services whose user-posts side answers with [status_code]. *)
Definition posts_status (status_code : Z) (f : fetcher) (_ : string) : http_outcome :=
  match f with
  | UserPosts => Response status_code None
  | CoinBalances => Response 200 (Some one_apt_500)
  end.

(** Services whose balances side answers with [status_code]. *)
Definition balances_status (status_code : Z) (f : fetcher) (_ : string) : http_outcome :=
  match f with
  | UserPosts => Response 200 (Some one_profile_two_posts)
  | CoinBalances => Response status_code None
  end.

(** Stub models: a constant, as a 1-D and as a 2-D result. *)
Definition constant_1d (v : spec_float) (_ : list pyobj) : result ndarray :=
  Ok (NdArray [NdItem v]).

Definition constant_2d (v : spec_float) (_ : list pyobj) : result ndarray :=
  Ok (NdArray [NdArray [NdItem v]]).

Definition half : spec_float := S754_finite false 4503599627370496 (-53).
Definition seven : spec_float := float_of_int 7.

End Samples.

(** ** Vocabulary of the properties *)

Definition no_totals : totals := Totals 0 0 0 0.

Definition add_totals (a b : totals) : totals :=
  Totals (total_followers a + total_followers b) (total_likes a + total_likes b)
    (total_comments a + total_comments b) (total_posts a + total_posts b).

(** A profile-like resource: its type tag ends in the profile suffix. *)
Definition profile_like (resource : json) : bool :=
  match subscript resource "type" with
  | Ok (JStr ty) => endswith ty profile_suffix
  | _ => false
  end.

(** The follower count a profile-like resource carries. *)
Definition follower_count (resource : json) : option Z :=
  if profile_like resource then
    match (data ← subscript resource "data";
           followers_count ← subscript data "followers_count";
           py_int followers_count) with
    | Ok n => Some n
    | Raise _ => None
    end
  else None.

Definition sum_Z (l : list Z) : Z := foldr Z.add 0 l.

(** The currency symbol of a balance entry, when it has one. *)
Definition symbol_of (balance : json) : option json :=
  match (metadata ← subscript balance "metadata"; subscript metadata "symbol") with
  | Ok symbol => Some symbol
  | Raise _ => None
  end.

Definition is_apt (balance : json) : Prop := symbol_of balance = Some (JStr "APT").

Definition other_symbol (balance : json) : Prop :=
  ∃ symbol, symbol_of balance = Some symbol ∧ symbol ≠ JStr "APT".

(** The [amount_in_usd] field of an entry, 0 when the entry has none. *)
Definition usd_amount (balance : json) : json :=
  match balance with
  | JDict d => default (JInt 0) (d !! "amount_in_usd")
  | _ => JInt 0
  end.

(** A resource the first loop processes without raising. *)
Definition resource_ok (resource : json) : Prop :=
  ∃ t, process_resource no_totals resource = Ok t.

(** A post the inner loop processes without raising. *)
Definition post_ok (post : json) : Prop :=
  ∃ t, process_post no_totals post = Ok t.

(** A post that is an object without one of the two fields read from it. *)
Inductive post_lacks_key : json → Prop :=
| post_no_like_count d :
    d !! "like_count" = None → post_lacks_key (JDict d)
| post_no_comments d like_count n :
    d !! "like_count" = Some like_count → py_int like_count = Ok n →
    d !! "comments" = None → post_lacks_key (JDict d).

(** A resource that is an object without a field read from it: its type
    tag, or below a profile-like or posts-like tag its data, the follower
    count, the posts, or a field of the first post that is not processed. *)
Inductive resource_lacks_key : json → Prop :=
| resource_no_type d :
    d !! "type" = None → resource_lacks_key (JDict d)
| profile_no_data d ty :
    d !! "type" = Some (JStr ty) → endswith ty profile_suffix = true →
    d !! "data" = None → resource_lacks_key (JDict d)
| profile_no_followers_count d ty data :
    d !! "type" = Some (JStr ty) → endswith ty profile_suffix = true →
    d !! "data" = Some (JDict data) → data !! "followers_count" = None →
    resource_lacks_key (JDict d)
| posts_no_data d ty :
    d !! "type" = Some (JStr ty) → endswith ty profile_suffix = false →
    endswith ty user_posts_suffix = true →
    d !! "data" = None → resource_lacks_key (JDict d)
| posts_no_posts d ty data :
    d !! "type" = Some (JStr ty) → endswith ty profile_suffix = false →
    endswith ty user_posts_suffix = true →
    d !! "data" = Some (JDict data) → data !! "posts" = None →
    resource_lacks_key (JDict d)
| posts_post_lacks_key d ty data before post after :
    d !! "type" = Some (JStr ty) → endswith ty profile_suffix = false →
    endswith ty user_posts_suffix = true →
    d !! "data" = Some (JDict data) →
    data !! "posts" = Some (JList (before ++ post :: after)) →
    Forall post_ok before → post_lacks_key post →
    resource_lacks_key (JDict d).

(** A user-posts payload in which the scan meets a missing field before
    anything else goes wrong. *)
Inductive user_posts_lack_key : json → Prop :=
| payload_no_resources d :
    d !! "resources" = None → user_posts_lack_key (JDict d)
| payload_resource_lacks_key d before resource after :
    d !! "resources" = Some (JList (before ++ resource :: after)) →
    Forall resource_ok before → resource_lacks_key resource →
    user_posts_lack_key (JDict d).

(** A balance entry that is an object without its metadata, or whose
    metadata is an object without the symbol. *)
Inductive balance_lacks_key : json → Prop :=
| balance_no_metadata d :
    d !! "metadata" = None → balance_lacks_key (JDict d)
| balance_no_symbol d metadata :
    d !! "metadata" = Some (JDict metadata) → metadata !! "symbol" = None →
    balance_lacks_key (JDict d).

(** A balances payload in which the scan meets a missing field before it
    meets an ["APT"] entry. *)
Inductive balances_lack_key : json → Prop :=
| payload_no_latest_balances d :
    d !! "latest_balances" = None → balances_lack_key (JDict d)
| payload_balance_lacks_key d before balance after :
    d !! "latest_balances" = Some (JList (before ++ balance :: after)) →
    Forall other_symbol before → balance_lacks_key balance →
    balances_lack_key (JDict d).

(** A value that does not give a field: it is no object, or an object
    without the key. *)
Definition lacks_field (v : json) (key : string) : Prop :=
  ∀ x, subscript v key ≠ Ok x.

(** The response of the [except KeyError] clause. *)
Definition malformed_upstream_data : response :=
  HTTPException 500 "Unexpected data structure in external API response".

(** A loop body that adds to the totals what it computes from the item. *)
Definition additive (body : totals → json → result totals) : Prop :=
  ∀ t x, body t x = (body no_totals x ≫= λ δ, Ok (add_totals t δ)).

(** ** Vocabulary of the further properties *)

(** What the totals of a finished scan always satisfy: counters that are not
    negative, and no likes or comments without a post. *)
Definition sane_totals (t : totals) : Prop :=
  0 ≤ total_posts t ∧ 0 ≤ total_comments t ∧
  (total_posts t = 0 → total_likes t = 0 ∧ total_comments t = 0).

(** A resource whose type tag is a [str] that ends in neither suffix. *)
Definition other_resource (resource : json) : Prop :=
  ∃ ty, subscript resource "type" = Ok (JStr ty) ∧
        endswith ty profile_suffix = false ∧
        endswith ty user_posts_suffix = false.

(** The posts the inner loop visits for a resource: those of a posts-like
    resource that is not profile-like, none for any other. *)
Definition posts_of (resource : json) : list json :=
  if profile_like resource then []
  else
    match (ty ← subscript resource "type"; str_endswith ty user_posts_suffix) with
    | Ok true =>
        match (data ← subscript resource "data";
               posts ← subscript data "posts";
               py_iter posts) with
        | Ok items => items
        | Raise _ => []
        end
    | _ => []
    end.

(** The like count and the number of comments a post carries. *)
Definition likes_of (post : json) : Z :=
  match (like_count ← subscript post "like_count"; py_int like_count) with
  | Ok n => n
  | Raise _ => 0
  end.

Definition comments_of (post : json) : Z :=
  match (comments ← subscript post "comments"; py_len comments) with
  | Ok n => n
  | Raise _ => 0
  end.

(** The response of the [except Exception] clause. *)
Definition internal_server_error : response :=
  HTTPException 500 "Internal Server Error".

(** ** Proof steps *)

(** Opens the handler up to its stages. *)
Ltac open_endpoint :=
  unfold calculate_berries_endpoint, calculate_berries_try, fetch_user_posts,
    fetch_coin_balances, http_get, calculate_credibility_weight, calculate_berries, predict.

(** Closes a branch whose record of calls has no call of the wanted kind. *)
Ltac not_called :=
  let H := fresh in
  intros H; cbn in H;
  repeat (destruct H as [H|H]; [discriminate H|]);
  destruct H.

(** ** Text *)

Example int_strips_c_whitespace : parse_int " 12 " = Some 12.
Proof. reflexivity. Qed.

Example int_keeps_unit_separator :
  parse_int (String (ascii_of_nat 31) "12") = None.
Proof. reflexivity. Qed.

Example int_reads_arabic_indic_digits : parse_int "١٢" = Some 12.
Proof. reflexivity. Qed.

Example int_strips_no_break_space :
  parse_int (String (ascii_of_nat 194) (String (ascii_of_nat 160) "12")) = Some 12.
Proof. reflexivity. Qed.

Example int_takes_4300_digits :
  is_Some (parse_int (string_of_list_ascii (repeat "1"%char 4300))) ∧
  parse_int (string_of_list_ascii (repeat "1"%char 4301)) = None.
Proof. split; [by eexists; vm_compute | by vm_compute]. Qed.

Example len_counts_characters : py_len (JStr "héllo😀") = Ok 6.
Proof. reflexivity. Qed.

(** ** The monads *)

Lemma result_bind_ok {A B : Type} (a : A) (f : A → result B) : (Ok a ≫= f) = f a.
Proof. reflexivity. Qed.

Lemma result_bind_raise {A B : Type} (e : exn) (f : A → result B) :
  (Raise e ≫= f) = Raise e.
Proof. reflexivity. Qed.

Lemma result_bind_inv {A B : Type} (m : result A) (f : A → result B) (b : B) :
  (m ≫= f) = Ok b → ∃ a, m = Ok a ∧ f a = Ok b.
Proof. destruct m as [a|e]; [eauto | discriminate]. Qed.

Lemma for_each_app {S : Type} (body : S → json → result S) (l1 l2 : list json) (s : S) :
  for_each body (l1 ++ l2) s = (for_each body l1 s ≫= for_each body l2).
Proof.
  revert s. induction l1 as [|x l1 IH]; intros s; [done|].
  cbn [for_each app]. destruct (body s x) as [s'|e]; [apply IH | done].
Qed.

(** ** The totals only ever grow by what an item contributes *)

Lemma add_totals_assoc (a b c : totals) :
  add_totals (add_totals a b) c = add_totals a (add_totals b c).
Proof. unfold add_totals; cbn. f_equal; lia. Qed.

Lemma add_totals_0_r (a : totals) : add_totals a no_totals = a.
Proof. destruct a; unfold add_totals; cbn. f_equal; lia. Qed.

Lemma for_each_additive (body : totals → json → result totals) :
  additive body → ∀ items, additive (λ t _, for_each body items t).
Proof.
  intros Hbody items. induction items as [|x items IH]; intros t dummy.
  - cbn. by rewrite add_totals_0_r.
  - cbn [for_each]. rewrite (Hbody t x).
    destruct (body no_totals x) as [δ|e]; [|done].
    rewrite !result_bind_ok.
    rewrite (IH (add_totals t δ) dummy), (IH δ dummy).
    destruct (for_each body items no_totals) as [δ'|e]; [|done].
    by rewrite !result_bind_ok, add_totals_assoc.
Qed.

Lemma process_post_additive : additive process_post.
Proof.
  intros t post. unfold process_post.
  destruct (subscript post "like_count") as [lc|]; [|done].
  rewrite !result_bind_ok. destruct (py_int lc) as [n|]; [|done].
  rewrite !result_bind_ok. destruct (subscript post "comments") as [cs|]; [|done].
  rewrite !result_bind_ok. destruct (py_len cs) as [k|]; [|done].
  rewrite !result_bind_ok. unfold add_totals; cbn. do 2 f_equal; lia.
Qed.

Lemma process_resource_additive : additive process_resource.
Proof.
  intros t r. unfold process_resource.
  destruct (subscript r "type") as [ty|]; [|done]. rewrite !result_bind_ok.
  destruct (str_endswith ty profile_suffix) as [[]|]; [| |done]; rewrite !result_bind_ok.
  - destruct (subscript r "data") as [d|]; [|done]. rewrite !result_bind_ok.
    destruct (subscript d "followers_count") as [fc|]; [|done]. rewrite !result_bind_ok.
    destruct (py_int fc) as [n|]; [|done].
    rewrite !result_bind_ok. unfold add_totals; cbn. do 2 f_equal; lia.
  - destruct (str_endswith ty user_posts_suffix) as [[]|]; [| |done]; rewrite !result_bind_ok.
    + destruct (subscript r "data") as [d|]; [|done]. rewrite !result_bind_ok.
      destruct (subscript d "posts") as [ps|]; [|done]. rewrite !result_bind_ok.
      destruct (py_iter ps) as [items|]; [|done]. rewrite !result_bind_ok.
      apply (for_each_additive _ process_post_additive items t JNull).
    + by rewrite add_totals_0_r.
Qed.

Lemma resources_additive (items : list json) (t : totals) :
  for_each process_resource items t
  = (for_each process_resource items no_totals ≫= λ δ, Ok (add_totals t δ)).
Proof. apply (for_each_additive _ process_resource_additive items t JNull). Qed.

Lemma aggregate_resources (p : json) (rs : list json) :
  subscript p "resources" = Ok (JList rs) →
  aggregate_user_posts p = for_each process_resource rs no_totals.
Proof. intros H. unfold aggregate_user_posts. by rewrite H. Qed.

Lemma aggregate_cons (r : json) (rs : list json) :
  for_each process_resource (r :: rs) no_totals
  = (process_resource no_totals r ≫= λ t,
     for_each process_resource rs no_totals ≫= λ δ, Ok (add_totals t δ)).
Proof.
  cbn [for_each]. destruct (process_resource no_totals r) as [t|]; [|done].
  rewrite !result_bind_ok. apply resources_additive.
Qed.

(** ** Followers *)

Lemma process_post_followers (t t' : totals) (post : json) :
  process_post t post = Ok t' → total_followers t' = total_followers t.
Proof.
  unfold process_post. intros H.
  apply result_bind_inv in H as (lc & _ & H). apply result_bind_inv in H as (n & _ & H).
  apply result_bind_inv in H as (cs & _ & H). apply result_bind_inv in H as (k & _ & H).
  by inversion H.
Qed.

Lemma posts_followers (posts : list json) (t t' : totals) :
  for_each process_post posts t = Ok t' → total_followers t' = total_followers t.
Proof.
  revert t. induction posts as [|p posts IH]; intros t H; cbn in H.
  - by inversion H.
  - apply result_bind_inv in H as (t1 & H1 & H).
    rewrite (IH _ H). by apply process_post_followers in H1.
Qed.

Lemma resource_followers (r : json) (t : totals) :
  process_resource no_totals r = Ok t →
  total_followers t = default 0 (follower_count r).
Proof.
  unfold process_resource, follower_count, profile_like. intros H.
  apply result_bind_inv in H as (ty & -> & H).
  apply result_bind_inv in H as (b & Hb & H).
  destruct ty; try discriminate. cbn in Hb. inversion Hb; subst b; clear Hb.
  destruct (endswith s profile_suffix).
  - apply result_bind_inv in H as (d & Hd & H).
    apply result_bind_inv in H as (fc & Hfc & H).
    apply result_bind_inv in H as (n & Hn & H).
    rewrite Hd, result_bind_ok, Hfc, result_bind_ok, Hn. by inversion H.
  - cbn. apply result_bind_inv in H as (ty' & _ & H).
    apply result_bind_inv in H as ([] & _ & H).
    + apply result_bind_inv in H as (d & _ & H).
      apply result_bind_inv in H as (ps & _ & H).
      apply result_bind_inv in H as (items & _ & H).
      by apply posts_followers in H.
    + by inversion H.
Qed.

Lemma sum_Z_cons (n : Z) (l : list Z) : sum_Z (n :: l) = n + sum_Z l.
Proof. reflexivity. Qed.

Lemma follower_counts_cons (r : json) (rs : list json) :
  omap follower_count (r :: rs)
  = match follower_count r with
    | Some n => n :: omap follower_count rs
    | None => omap follower_count rs
    end.
Proof. reflexivity. Qed.

Lemma followers_sum (rs : list json) (t : totals) :
  for_each process_resource rs no_totals = Ok t →
  total_followers t = sum_Z (omap follower_count rs).
Proof.
  revert t. induction rs as [|r rs IH]; intros t H.
  - by inversion H.
  - rewrite aggregate_cons in H.
    apply result_bind_inv in H as (t1 & H1 & H).
    apply result_bind_inv in H as (δ & Hδ & H).
    inversion H; subst t; clear H. cbn [add_totals total_followers].
    rewrite (IH _ Hδ), (resource_followers _ _ H1).
    rewrite follower_counts_cons. destruct (follower_count r); [rewrite sum_Z_cons|]; unfold default, id; cbn [from_option]; lia.
Qed.

(** C1, as the code has it: the follower counts of all the profile-like
    resources of a payload are added up; with several of them the total is
    their sum. *)
Theorem total_followers_is_sum (p : json) (rs : list json) (t : totals) :
  subscript p "resources" = Ok (JList rs) →
  aggregate_user_posts p = Ok t →
  total_followers t = sum_Z (omap follower_count rs).
Proof.
  intros Hrs H. rewrite (aggregate_resources _ _ Hrs) in H. by apply followers_sum.
Qed.

Lemma total_followers_is_sum_witness :
  total_followers (Totals 12 0 0 0) = sum_Z [5; 7].
Proof.
  apply (total_followers_is_sum Samples.two_profiles
           [Samples.profile (JInt 5); Samples.profile (JInt 7)]); reflexivity.
Defined.

(** C1, as the spec words it, fails: with two profile resources carrying 5
    and 7 followers the total is 12, not the last count 7. *)
Lemma last_profile_does_not_win :
  aggregate_user_posts Samples.two_profiles = Ok (Totals 12 0 0 0) ∧
  omap follower_count [Samples.profile (JInt 5); Samples.profile (JInt 7)] = [5; 7] ∧
  ¬ (∀ p rs t,
       subscript p "resources" = Ok (JList rs) →
       aggregate_user_posts p = Ok t →
       (1 < length (filter (λ r, Is_true (profile_like r)) rs))%nat →
       Some (total_followers t) = last (omap follower_count rs)).
Proof.
  split; [reflexivity|]. split; [reflexivity|].
  intros H.
  specialize (H Samples.two_profiles
                [Samples.profile (JInt 5); Samples.profile (JInt 7)]
                (Totals 12 0 0 0) eq_refl eq_refl).
  assert (Hlen : (1 < length (filter (λ r, Is_true (profile_like r))
                    [Samples.profile (JInt 5); Samples.profile (JInt 7)]))%nat)
    by (vm_compute; lia).
  specialize (H Hlen). vm_compute in H. discriminate.
Qed.

(** ** On-chain net worth *)

Lemma symbol_of_inv (b symbol : json) :
  symbol_of b = Some symbol →
  ∃ metadata, subscript b "metadata" = Ok metadata ∧ subscript metadata "symbol" = Ok symbol.
Proof.
  unfold symbol_of. destruct (subscript b "metadata") as [md|] eqn:Hmd; [|done].
  rewrite result_bind_ok. destruct (subscript md "symbol") as [s|] eqn:Hs; [|done].
  intros [= <-]. eauto.
Qed.

Lemma eq_str_false (symbol : json) (s : string) : symbol ≠ JStr s → eq_str symbol s = false.
Proof.
  destruct symbol; try done. intros Hne. cbn.
  apply String.eqb_neq. congruence.
Qed.

Lemma scan_balances_miss (b : json) (rest : list json) (nw : json) :
  other_symbol b → scan_balances (b :: rest) nw = scan_balances rest nw.
Proof.
  intros (symbol & Hsym & Hne). apply symbol_of_inv in Hsym as (md & Hmd & Hs).
  cbn [scan_balances]. rewrite Hmd, result_bind_ok, Hs, result_bind_ok.
  by rewrite (eq_str_false _ _ Hne).
Qed.

Lemma scan_balances_skip (pre rest : list json) (nw : json) :
  Forall other_symbol pre → scan_balances (pre ++ rest) nw = scan_balances rest nw.
Proof.
  induction 1 as [|b pre Hb _ IH]; [done|].
  cbn [app]. by rewrite scan_balances_miss.
Qed.

Lemma scan_balances_hit (b : json) (rest : list json) (nw : json) :
  is_apt b → scan_balances (b :: rest) nw = Ok (usd_amount b).
Proof.
  intros Hapt. apply symbol_of_inv in Hapt as (md & Hmd & Hs).
  cbn [scan_balances]. rewrite Hmd, result_bind_ok, Hs, result_bind_ok. cbn [eq_str String.eqb].
  destruct b; try discriminate. cbn. by destruct (d !! "amount_in_usd").
Qed.

Lemma scan_balances_none (bs : list json) (nw : json) :
  Forall other_symbol bs → scan_balances bs nw = Ok nw.
Proof.
  intros H. rewrite <- (app_nil_r bs). by rewrite scan_balances_skip.
Qed.

Lemma net_worth_balances (p : json) (bs : list json) :
  subscript p "latest_balances" = Ok (JList bs) →
  extract_onchain_net_worth p = scan_balances bs (JInt 0).
Proof. intros H. unfold extract_onchain_net_worth. by rewrite H. Qed.

(** C2: the net worth is the USD amount of the first entry whose symbol is
    ["APT"], 0 when that entry has no amount; what follows that entry is not
    looked at; without such an entry the net worth is 0. *)
Theorem net_worth_is_first_apt (p : json) (bs : list json) :
  subscript p "latest_balances" = Ok (JList bs) →
  (∀ pre b post,
     bs = pre ++ b :: post → Forall other_symbol pre → is_apt b →
     extract_onchain_net_worth p = Ok (usd_amount b)) ∧
  (Forall other_symbol bs → extract_onchain_net_worth p = Ok (JInt 0)).
Proof.
  intros Hbs. rewrite (net_worth_balances _ _ Hbs). split.
  - intros pre b post -> Hpre Hb.
    by rewrite scan_balances_skip, scan_balances_hit.
  - apply scan_balances_none.
Qed.

(** C10: when the first ["APT"] entry has no [amount_in_usd], the net worth
    is 0 whatever comes after it, a later ["APT"] entry with an amount
    included. *)
Theorem first_apt_without_amount (p : json) (pre post : list json) (d : gmap string json) :
  subscript p "latest_balances" = Ok (JList (pre ++ JDict d :: post)) →
  Forall other_symbol pre →
  is_apt (JDict d) →
  d !! "amount_in_usd" = None →
  extract_onchain_net_worth p = Ok (JInt 0).
Proof.
  intros Hbs Hpre Hapt Hnone. rewrite (net_worth_balances _ _ Hbs).
  rewrite scan_balances_skip, scan_balances_hit by done.
  cbn. by rewrite Hnone.
Qed.

Lemma usdc_is_other_symbol (amount : json) : other_symbol (Samples.balance "USDC" amount).
Proof. exists (JStr "USDC"). split; [reflexivity | discriminate]. Defined.

Lemma net_worth_is_first_apt_witness :
  extract_onchain_net_worth
    (Samples.balances [Samples.balance "USDC" (JInt 3); Samples.balance "APT" (JInt 500);
                       Samples.balance "APT" (JInt 7)]) = Ok (JInt 500) ∧
  extract_onchain_net_worth (Samples.balances [Samples.balance "USDC" (JInt 3)])
  = Ok (JInt 0).
Proof.
  split.
  - apply (proj1 (net_worth_is_first_apt
                    (Samples.balances [Samples.balance "USDC" (JInt 3);
                                       Samples.balance "APT" (JInt 500);
                                       Samples.balance "APT" (JInt 7)])
                    [Samples.balance "USDC" (JInt 3); Samples.balance "APT" (JInt 500);
                     Samples.balance "APT" (JInt 7)] eq_refl)
             [Samples.balance "USDC" (JInt 3)] (Samples.balance "APT" (JInt 500))
             [Samples.balance "APT" (JInt 7)]).
    + reflexivity.
    + repeat constructor. apply usdc_is_other_symbol.
    + reflexivity.
  - apply (proj2 (net_worth_is_first_apt
                    (Samples.balances [Samples.balance "USDC" (JInt 3)])
                    [Samples.balance "USDC" (JInt 3)] eq_refl)).
    repeat constructor. apply usdc_is_other_symbol.
Defined.

Lemma first_apt_without_amount_witness :
  extract_onchain_net_worth (Samples.balances Samples.apt_without_amount_first)
  = Ok (JInt 0).
Proof.
  apply (first_apt_without_amount _ [Samples.balance "USDC" (JInt 3)]
           [Samples.balance "APT" (JInt 7)]
           (list_to_map [("metadata", Samples.obj [("symbol", JStr "APT")])])).
  - reflexivity.
  - repeat constructor. apply usdc_is_other_symbol.
  - reflexivity.
  - reflexivity.
Defined.

(** ** Averages *)

Lemma int_true_divide_nonzero (a b : Z) : b ≠ 0 → int_true_divide a b ≠ Raise ZeroDivisionError.
Proof.
  intros Hb. unfold int_true_divide.
  destruct (Z.eqb_spec b 0) as [|_]; [done|].
  destruct (a =? 0); [done|].
  by destruct (SFdiv _ _ _ _).
Qed.

Lemma average_per_day_no_zero_division (total posts : Z) :
  average_per_day total posts ≠ Raise ZeroDivisionError.
Proof.
  unfold average_per_day. destruct (Z.ltb_spec 0 posts) as [Hpos|_]; [|done].
  pose proof (int_true_divide_nonzero total posts) as H.
  destruct (int_true_divide total posts) as [q|e]; [done|].
  rewrite result_bind_raise. intros [= ->]. apply H; [lia | done].
Qed.

(** C3: with a post counter of 0 both averages are the integer 0, and
    computing an average never raises [ZeroDivisionError]. *)
Theorem zero_posts_zero_averages (p : json) (t : totals) :
  aggregate_user_posts p = Ok t →
  total_posts t = 0 →
  average_per_day (total_likes t) (total_posts t) = Ok (JInt 0) ∧
  average_per_day (total_comments t) (total_posts t) = Ok (JInt 0) ∧
  (∀ total, average_per_day total (total_posts t) ≠ Raise ZeroDivisionError).
Proof.
  intros _ ->. repeat split. intros total. apply average_per_day_no_zero_division.
Qed.

Lemma zero_posts_zero_averages_witness :
  average_per_day 0 0 = Ok (JInt 0) ∧ average_per_day 0 0 = Ok (JInt 0) ∧
  (∀ total, average_per_day total 0 ≠ Raise ZeroDivisionError).
Proof.
  apply (zero_posts_zero_averages (Samples.payload []) (Totals 0 0 0 0)); reflexivity.
Defined.

(** ** The worked example *)

(** C8: the payload with one profile (120 followers) and two posts (10 and
    20 likes, 3 and 1 comments) gives the totals 120, 30, 4, 2 and the
    averages 15.0 and 2.0; one APT entry worth 500 gives a net worth of 500. *)
Theorem worked_example :
  aggregate_user_posts Samples.one_profile_two_posts = Ok (Totals 120 30 4 2) ∧
  average_per_day 30 2 = Ok (JFloat (float_of_int 15)) ∧
  average_per_day 4 2 = Ok (JFloat (float_of_int 2)) ∧
  extract_onchain_net_worth Samples.one_apt_500 = Ok (JInt 500).
Proof. repeat split; vm_compute; reflexivity. Qed.

(** ** Building the feature array *)

Lemma np_array_ok (row features : list pyobj) : np_array row = Ok features → features = row.
Proof. unfold np_array. destruct (common_shape _); [by intros [= <-] | done]. Qed.

Lemma np_array_scalars (row : list pyobj) :
  Forall (λ o, obj_shape o = Some []) row → np_array row = Ok row.
Proof.
  intros H. unfold np_array. destruct H as [|o row Ho Hrow]; [done|].
  cbn [fmap list_fmap common_shape]. rewrite Ho. cbn [mbind option_bind].
  replace (forallb _ _) with true; [done|].
  symmetry. apply forallb_forall. intros x Hx. apply in_map_iff in Hx as (o' & <- & Ho').
  rewrite Forall_forall in Hrow. rewrite (Hrow o'); [|by apply list_elem_of_In].
  by apply bool_decide_eq_true.
Qed.

Lemma common_shape_not_scalar (shapes : list (option (list nat))) :
  common_shape shapes ≠ Some [].
Proof.
  destruct shapes as [|[shape|] rest]; cbn; [done| |done].
  by destruct (forallb _ _).
Qed.

Lemma np_array_sequence_after_scalar (first : pyobj) (rest : list pyobj) :
  obj_shape first = Some [] →
  Exists (λ o, obj_shape o ≠ Some []) rest →
  np_array (first :: rest) = Raise ValueError.
Proof.
  intros Hfirst Hrest. unfold np_array. cbn [fmap list_fmap common_shape].
  rewrite Hfirst. cbn [mbind option_bind].
  replace (forallb _ _) with false; [done|].
  symmetry. apply not_true_is_false. intros Hall.
  rewrite forallb_forall in Hall. apply Exists_exists in Hrest as (o & Ho & Hshape).
  specialize (Hall (obj_shape o)).
  destruct (obj_shape o) as [shape|] eqn:E.
  - assert (Hin : In (Some shape) (obj_shape <$> rest)).
    { apply in_map_iff. exists o. split; [done | by apply list_elem_of_In]. }
    apply Hall, bool_decide_eq_true in Hin. congruence.
  - assert (Hin : In None (obj_shape <$> rest)).
    { apply in_map_iff. exists o. split; [done | by apply list_elem_of_In]. }
    by apply Hall in Hin.
Qed.

Lemma np_array_sequence_before_scalar (first second : pyobj) :
  obj_shape first ≠ Some [] →
  obj_shape second = Some [] →
  np_array [first; second] = Raise ValueError.
Proof.
  intros Hfirst Hsecond. unfold np_array. cbn [fmap list_fmap common_shape].
  rewrite Hsecond. destruct (obj_shape first) as [[|n shape]|]; [done| |done].
  cbn [mbind option_bind forallb]. by rewrite bool_decide_eq_false_2.
Qed.

Lemma average_scalar (total posts : Z) (average : json) :
  average_per_day total posts = Ok average → json_shape average = Some [].
Proof.
  unfold average_per_day. destruct (0 <? posts); [|by intros [= <-]].
  destruct (int_true_divide total posts); [|done]. by intros [= <-].
Qed.

(** ** Reducing a prediction to a scalar *)

(** C5: in both wrappers a model answering [[v]] gives what a model
    answering [v] gives, and once the feature array is built that is the
    scalar [v]. *)
Theorem shape_of_prediction_is_irrelevant (v : spec_float)
    (model_1d model_2d : list pyobj → result ndarray) :
  (∀ features, model_1d features = Ok (NdArray [NdItem v])) →
  (∀ features, model_2d features = Ok (NdArray [NdArray [NdItem v]])) →
  (∀ onchain_net_worth followers_of_followers,
     calculate_credibility_weight model_1d onchain_net_worth followers_of_followers
     = calculate_credibility_weight model_2d onchain_net_worth followers_of_followers ∧
     (∀ features,
        np_array [PyJ onchain_net_worth; PyJ (JInt followers_of_followers)] = Ok features →
        outcome (calculate_credibility_weight model_1d onchain_net_worth
                   followers_of_followers) = Ok (NdItem v) ∧
        outcome (calculate_credibility_weight model_2d onchain_net_worth
                   followers_of_followers) = Ok (NdItem v))) ∧
  (∀ input_data,
     calculate_berries model_1d input_data = calculate_berries model_2d input_data ∧
     (∀ row features,
        berries_features input_data = Ok row → np_array row = Ok features →
        outcome (calculate_berries model_1d input_data) = Ok (NdItem v) ∧
        outcome (calculate_berries model_2d input_data) = Ok (NdItem v))).
Proof.
  intros H1 H2. split.
  - intros nw fof. unfold calculate_credibility_weight, predict. split.
    + destruct (np_array _) as [features|]; [|done]. cbn. by rewrite H1, H2.
    + intros features ->. cbn. by rewrite H1, H2.
  - intros d. unfold calculate_berries, predict. split.
    + destruct (berries_features d) as [row|]; [|done]. cbn.
      destruct (np_array row) as [features|]; [|done]. cbn. by rewrite H1, H2.
    + intros row features -> Hrow. cbn. rewrite Hrow. cbn. by rewrite H1, H2.
Qed.

Lemma shape_of_prediction_is_irrelevant_witness :
  outcome (calculate_credibility_weight (Samples.constant_1d Samples.half) (JInt 500) 5000)
  = Ok (NdItem Samples.half) ∧
  outcome (calculate_credibility_weight (Samples.constant_2d Samples.half) (JInt 500) 5000)
  = Ok (NdItem Samples.half).
Proof.
  destruct (shape_of_prediction_is_irrelevant Samples.half
              (Samples.constant_1d Samples.half) (Samples.constant_2d Samples.half))
    as [H _]; [reflexivity | reflexivity |].
  destruct (H (JInt 500) 5000) as [_ Hout].
  apply (Hout [PyJ (JInt 500); PyJ (JInt 5000)]). reflexivity.
Defined.

(** ** Missing fields *)

Lemma for_each_prefix_ok (body : totals → json → result totals) (items : list json) :
  additive body →
  Forall (λ x, ∃ δ, body no_totals x = Ok δ) items →
  ∀ t, ∃ t', for_each body items t = Ok t'.
Proof.
  intros Hadd. induction 1 as [|x items [δ Hx] _ IH]; intros t; [by exists t|].
  cbn [for_each]. rewrite (Hadd t x), Hx, !result_bind_ok. apply IH.
Qed.

Lemma for_each_first_fault (body : totals → json → result totals)
    (before after : list json) (x : json) :
  additive body →
  Forall (λ x, ∃ δ, body no_totals x = Ok δ) before →
  (∀ t, ∃ k, body t x = Raise (KeyError k)) →
  ∀ t, ∃ k, for_each body (before ++ x :: after) t = Raise (KeyError k).
Proof.
  intros Hadd Hbefore Hx t. rewrite for_each_app.
  destruct (for_each_prefix_ok body before Hadd Hbefore t) as [t' ->].
  rewrite result_bind_ok. cbn [for_each].
  destruct (Hx t') as [k ->]. by exists k.
Qed.

Lemma post_lacks_key_raises (post : json) :
  post_lacks_key post → ∀ t, ∃ k, process_post t post = Raise (KeyError k).
Proof.
  intros H t. unfold process_post.
  destruct H as [d Hlc | d lc n Hlc Hn Hcs]; cbn [subscript]; rewrite Hlc.
  - by exists "like_count".
  - rewrite result_bind_ok, Hn, result_bind_ok, Hcs. by exists "comments".
Qed.

Lemma resource_lacks_key_raises (resource : json) :
  resource_lacks_key resource →
  ∀ t, ∃ k, process_resource t resource = Raise (KeyError k).
Proof.
  intros H t. unfold process_resource.
  destruct H as [d Hty | d ty Hty Hp Hd | d ty data Hty Hp Hd Hfc | d ty Hty Hp Hu Hd
                | d ty data Hty Hp Hu Hd Hps
                | d ty data before post after Hty Hp Hu Hd Hps Hbefore Hpost];
    cbn [subscript]; rewrite Hty; try (by exists "type");
    rewrite !result_bind_ok; cbn [str_endswith]; rewrite Hp, ?result_bind_ok;
    cbn [str_endswith]; rewrite ?Hu, ?result_bind_ok, Hd.
  - by exists "data".
  - rewrite result_bind_ok. cbn [subscript]. rewrite Hfc. by exists "followers_count".
  - by exists "data".
  - rewrite result_bind_ok. cbn [subscript]. rewrite Hps. by exists "posts".
  - rewrite result_bind_ok. cbn [subscript]. rewrite Hps, result_bind_ok.
    cbn [py_iter]. rewrite result_bind_ok.
    apply (for_each_first_fault process_post before after post process_post_additive).
    + exact Hbefore.
    + by apply post_lacks_key_raises.
Qed.

Lemma user_posts_lack_key_raises (p : json) :
  user_posts_lack_key p → ∃ k, aggregate_user_posts p = Raise (KeyError k).
Proof.
  intros H. unfold aggregate_user_posts.
  destruct H as [d Hrs | d before r after Hrs Hbefore Hr]; cbn [subscript]; rewrite Hrs.
  - by exists "resources".
  - rewrite result_bind_ok. cbn [py_iter]. rewrite result_bind_ok.
    apply (for_each_first_fault process_resource before after r process_resource_additive).
    + exact Hbefore.
    + by apply resource_lacks_key_raises.
Qed.

Lemma balance_lacks_key_raises (balance : json) (rest : list json) (nw : json) :
  balance_lacks_key balance →
  ∃ k, scan_balances (balance :: rest) nw = Raise (KeyError k).
Proof.
  intros H. cbn [scan_balances].
  destruct H as [d Hmd | d md Hmd Hs]; cbn [subscript]; rewrite Hmd.
  - by exists "metadata".
  - rewrite result_bind_ok. cbn [subscript]. rewrite Hs. by exists "symbol".
Qed.

Lemma balances_lack_key_raises (p : json) :
  balances_lack_key p → ∃ k, extract_onchain_net_worth p = Raise (KeyError k).
Proof.
  intros H. unfold extract_onchain_net_worth.
  destruct H as [d Hbs | d before b after Hbs Hbefore Hb]; cbn [subscript]; rewrite Hbs.
  - by exists "latest_balances".
  - rewrite result_bind_ok. cbn [py_iter]. rewrite result_bind_ok.
    rewrite scan_balances_skip by done. by apply balance_lacks_key_raises.
Qed.

(** ** The request, stage by stage *)

Lemma berries_input_features (followers likes comments ads al ac cw : pyobj) :
  berries_features
    (<["followers" := followers]> (
     <["likes" := likes]> (
     <["comments" := comments]> (
     <["ads_purchased_from_profile" := ads]> (
     <["average_likes_per_day" := al]> (
     <["average_comments_per_day" := ac]> (
     <["credibility_weight" := cw]> ∅)))))))
  = Ok [followers; likes; comments; ads; al; ac; cw].
Proof. reflexivity. Qed.

Section Stages.

Context (upstream : fetcher → string → http_outcome).
Context (credibility_model influencer_model : list pyobj → result ndarray).
Context (input : BerryCalculationInput).

#[local] Abbreviation address := (account_address input).
#[local] Abbreviation endpoint :=
  (calculate_berries_endpoint upstream credibility_model influencer_model input).

Lemma influencer_row_built (total_likes total_comments posts followers likes comments : Z)
    (al ac : json) (cw : spec_float) :
  average_per_day total_likes posts = Ok al →
  average_per_day total_comments posts = Ok ac →
  np_array [PyJ (JInt followers); PyJ (JInt likes); PyJ (JInt comments); PyJ (JInt 10);
            PyJ al; PyJ ac; PyNd (NdItem cw)]
  = Ok [PyJ (JInt followers); PyJ (JInt likes); PyJ (JInt comments); PyJ (JInt 10);
        PyJ al; PyJ ac; PyNd (NdItem cw)].
Proof.
  intros Hal Hac. apply np_array_scalars.
  apply average_scalar in Hal. apply average_scalar in Hac.
  by repeat constructor.
Qed.

Lemma endpoint_success (s1 s2 : Z) (p b nw al ac : json) (t : totals)
    (pc pb : ndarray) (cw bv : spec_float) :
  upstream UserPosts address = Response s1 (Some p) →
  is_success s1 = true →
  aggregate_user_posts p = Ok t →
  average_per_day (total_likes t) (total_posts t) = Ok al →
  average_per_day (total_comments t) (total_posts t) = Ok ac →
  upstream CoinBalances address = Response s2 (Some b) →
  is_success s2 = true →
  extract_onchain_net_worth b = Ok nw →
  np_array [PyJ nw; PyJ (JInt 5000)] = Ok [PyJ nw; PyJ (JInt 5000)] →
  credibility_model [PyJ nw; PyJ (JInt 5000)] = Ok pc →
  reduce_prediction pc = Ok (NdItem cw) →
  influencer_model
    [PyJ (JInt (total_followers t)); PyJ (JInt (total_likes t));
     PyJ (JInt (total_comments t)); PyJ (JInt 10); PyJ al; PyJ ac; PyNd (NdItem cw)]
  = Ok pb →
  reduce_prediction pb = Ok (NdItem bv) →
  endpoint
  = ([EvGet UserPosts address; EvGet CoinBalances address;
      EvPredict Credibility [PyJ nw; PyJ (JInt 5000)];
      EvPredict Influencer
        [PyJ (JInt (total_followers t)); PyJ (JInt (total_likes t));
         PyJ (JInt (total_comments t)); PyJ (JInt 10); PyJ al; PyJ ac; PyNd (NdItem cw)]],
     BerryCalculationOutput cw bv).
Proof.
  intros Hup1 Hs1 Hagg Hal Hac Hup2 Hs2 Hnw Hrow Hcm Hrc Him Hrb.
  unfold calculate_berries_endpoint, calculate_berries_try, fetch_user_posts,
    fetch_coin_balances, http_get, calculate_credibility_weight, calculate_berries, predict.
  rewrite Hup1, Hs1. cbn. rewrite Hagg. cbn. rewrite Hal. cbn. rewrite Hac. cbn.
  rewrite Hup2, Hs2. cbn. rewrite Hnw. cbn. rewrite Hrow. cbn. rewrite Hcm. cbn.
  rewrite Hrc. cbn. rewrite berries_input_features. cbn.
  rewrite (influencer_row_built _ _ _ _ _ _ al ac cw Hal Hac). cbn.
  rewrite Him. cbn. rewrite Hrb. cbn.
  reflexivity.
Qed.

(** C4: when the credibility model answers the scalar [V], any row handed
    to the influencer model is [followers, likes, comments, 10, average
    likes, average comments, V], its 7th element is [V], and the call of the
    credibility model comes just before. *)
Theorem credibility_weight_is_seventh_feature (V : spec_float) (features : list pyobj) :
  (∀ f, credibility_model f = Ok (NdArray [NdItem V]) ∨
        credibility_model f = Ok (NdArray [NdArray [NdItem V]])) →
  In (EvPredict Influencer features) endpoint.1 →
  ∃ (s1 s2 : Z) (p b nw al ac : json) (t : totals),
    upstream UserPosts address = Response s1 (Some p) ∧
    upstream CoinBalances address = Response s2 (Some b) ∧
    aggregate_user_posts p = Ok t ∧
    average_per_day (total_likes t) (total_posts t) = Ok al ∧
    average_per_day (total_comments t) (total_posts t) = Ok ac ∧
    extract_onchain_net_worth b = Ok nw ∧
    features
    = [PyJ (JInt (total_followers t)); PyJ (JInt (total_likes t));
       PyJ (JInt (total_comments t)); PyJ (JInt 10); PyJ al; PyJ ac; PyNd (NdItem V)] ∧
    features !! 6%nat = Some (PyNd (NdItem V)) ∧
    endpoint.1
    = [EvGet UserPosts address; EvGet CoinBalances address;
       EvPredict Credibility [PyJ nw; PyJ (JInt 5000)];
       EvPredict Influencer features].
Proof.
  intros Hcm. open_endpoint.
  destruct (upstream UserPosts address) as [|s1 [p|]] eqn:Hup1; cbn;
    [not_called | | destruct (is_success s1); cbn; not_called].
  destruct (is_success s1); cbn; [|not_called].
  destruct (aggregate_user_posts p) as [t|] eqn:Hagg; cbn; [|not_called].
  destruct (average_per_day (total_likes t) (total_posts t)) as [al|] eqn:Hal; cbn;
    [|not_called].
  destruct (average_per_day (total_comments t) (total_posts t)) as [ac|] eqn:Hac; cbn;
    [|not_called].
  destruct (upstream CoinBalances address) as [|s2 [b|]] eqn:Hup2; cbn;
    [not_called | | destruct (is_success s2); cbn; not_called].
  destruct (is_success s2); cbn; [|not_called].
  destruct (extract_onchain_net_worth b) as [nw|] eqn:Hnw; cbn; [|not_called].
  destruct (np_array [PyJ nw; PyJ (JInt 5000)]) as [row|] eqn:Hrow; cbn; [|not_called].
  apply np_array_ok in Hrow as ->.
  assert (Hred : ∃ pc, credibility_model [PyJ nw; PyJ (JInt 5000)] = Ok pc ∧
                       reduce_prediction pc = Ok (NdItem V)).
  { destruct (Hcm [PyJ nw; PyJ (JInt 5000)]) as [H|H]; rewrite H; eauto. }
  destruct Hred as (pc & Hpc & Hred). rewrite Hpc. cbn. rewrite Hred. cbn.
  rewrite berries_input_features. cbn.
  destruct (np_array _) as [row|] eqn:Hrow; cbn; [|not_called].
  apply np_array_ok in Hrow as ->.
  assert (Hfinish : ∀ rest : list event,
            rest = [] →
            In (EvPredict Influencer features)
              (EvGet UserPosts address :: EvGet CoinBalances address
               :: EvPredict Credibility [PyJ nw; PyJ (JInt 5000)]
               :: EvPredict Influencer
                    [PyJ (JInt (total_followers t)); PyJ (JInt (total_likes t));
                     PyJ (JInt (total_comments t)); PyJ (JInt 10); PyJ al; PyJ ac;
                     PyNd (NdItem V)] :: rest) →
            features
            = [PyJ (JInt (total_followers t)); PyJ (JInt (total_likes t));
               PyJ (JInt (total_comments t)); PyJ (JInt 10); PyJ al; PyJ ac;
               PyNd (NdItem V)]).
  { intros rest ->. intros [H|[H|[H|[H|[]]]]]; try discriminate H. by inversion H. }
  destruct (influencer_model _) as [pb|] eqn:Him; cbn;
    [destruct (reduce_prediction pb); cbn|];
    intros HIn; apply (Hfinish _ eq_refl) in HIn; subst features;
    by exists s1, s2, p, b, nw, al, ac, t.
Qed.

(** C6: a fetch that was made and answered outside 2xx ends the request with
    an error response carrying that status; the request made no call after
    it and made none twice. *)
Theorem upstream_status_is_forwarded (f : fetcher) (s : Z) (body : option json) :
  In (EvGet f address) endpoint.1 →
  upstream f address = Response s body →
  is_success s = false →
  endpoint.2 = HTTPException s "Error fetching external data" ∧
  (∀ cw b, endpoint.2 ≠ BerryCalculationOutput cw b) ∧
  endpoint.1
  = match f with
    | UserPosts => [EvGet UserPosts address]
    | CoinBalances => [EvGet UserPosts address; EvGet CoinBalances address]
    end.
Proof.
  intros HIn Hup Hs. revert HIn. open_endpoint. destruct f.
  - intros _. rewrite Hup, Hs. by cbn.
  - destruct (upstream UserPosts address) as [|s1 [p|]] eqn:Hup1; cbn;
      [not_called | | destruct (is_success s1); cbn; not_called].
    destruct (is_success s1); cbn; [|not_called].
    destruct (aggregate_user_posts p) as [t|] eqn:Hagg; cbn; [|not_called].
    destruct (average_per_day (total_likes t) (total_posts t)) as [al|]; cbn;
      [|not_called].
    destruct (average_per_day (total_comments t) (total_posts t)) as [ac|]; cbn;
      [|not_called].
    intros _. rewrite Hup, Hs. by cbn.
Qed.

(** C7, as the code has it: when the scan of a fetched payload, everything
    before having been processed without fault, meets an object without a
    field the code reads from it, the response is the 500 of the
    [except KeyError] clause. The balances are scanned up to the first
    ["APT"] entry. *)
Theorem missing_field_is_malformed_upstream_data
    (s1 s2 : Z) (p b al ac : json) (t : totals) :
  upstream UserPosts address = Response s1 (Some p) →
  is_success s1 = true →
  user_posts_lack_key p ∨
  (aggregate_user_posts p = Ok t ∧
   average_per_day (total_likes t) (total_posts t) = Ok al ∧
   average_per_day (total_comments t) (total_posts t) = Ok ac ∧
   upstream CoinBalances address = Response s2 (Some b) ∧
   is_success s2 = true ∧
   balances_lack_key b) →
  endpoint.2 = malformed_upstream_data.
Proof.
  intros Hup1 Hs1 H. open_endpoint. rewrite Hup1, Hs1. cbn.
  destruct H as [H | (Hagg & Hal & Hac & Hup2 & Hs2 & H)].
  - apply user_posts_lack_key_raises in H as [k ->]. by cbn.
  - rewrite Hagg. cbn. rewrite Hal. cbn. rewrite Hac. cbn. rewrite Hup2, Hs2. cbn.
    apply balances_lack_key_raises in H as [k ->]. by cbn.
Qed.

Lemma no_profile_no_follower_counts (rs : list json) :
  Forall (λ r, profile_like r = false) rs → omap follower_count rs = [].
Proof.
  induction 1 as [|r rs Hr _ IH]; [done|].
  rewrite follower_counts_cons. unfold follower_count at 1. by rewrite Hr.
Qed.

(** C9: a payload without a profile-like resource, whose resources are each
    processed without fault, aggregates to 0 followers; the request then
    goes on to the two models and answers 200 when the remaining stages
    succeed, the building of the credibility row included; and the totals of
    two lists of resources add up when the lists are put together. *)
Theorem absent_profile_is_not_an_error (p : json) (rs : list json) :
  subscript p "resources" = Ok (JList rs) →
  Forall (λ r, profile_like r = false) rs →
  Forall resource_ok rs →
  ∃ t,
    aggregate_user_posts p = Ok t ∧
    total_followers t = 0 ∧
    (∀ (s1 s2 : Z) (b nw al ac : json) (pc pb : ndarray) (cw bv : spec_float),
       upstream UserPosts address = Response s1 (Some p) →
       is_success s1 = true →
       average_per_day (total_likes t) (total_posts t) = Ok al →
       average_per_day (total_comments t) (total_posts t) = Ok ac →
       upstream CoinBalances address = Response s2 (Some b) →
       is_success s2 = true →
       extract_onchain_net_worth b = Ok nw →
       np_array [PyJ nw; PyJ (JInt 5000)] = Ok [PyJ nw; PyJ (JInt 5000)] →
       credibility_model [PyJ nw; PyJ (JInt 5000)] = Ok pc →
       reduce_prediction pc = Ok (NdItem cw) →
       influencer_model
         [PyJ (JInt 0); PyJ (JInt (total_likes t)); PyJ (JInt (total_comments t));
          PyJ (JInt 10); PyJ al; PyJ ac; PyNd (NdItem cw)] = Ok pb →
       reduce_prediction pb = Ok (NdItem bv) →
       endpoint
       = ([EvGet UserPosts address; EvGet CoinBalances address;
           EvPredict Credibility [PyJ nw; PyJ (JInt 5000)];
           EvPredict Influencer
             [PyJ (JInt 0); PyJ (JInt (total_likes t)); PyJ (JInt (total_comments t));
              PyJ (JInt 10); PyJ al; PyJ ac; PyNd (NdItem cw)]],
          BerryCalculationOutput cw bv)) ∧
    (∀ (p' p'' : json) (rs' : list json) (t' : totals),
       subscript p' "resources" = Ok (JList rs') →
       aggregate_user_posts p' = Ok t' →
       subscript p'' "resources" = Ok (JList (rs ++ rs')) →
       aggregate_user_posts p'' = Ok (add_totals t t')).
Proof.
  intros Hrs Hnone Hok.
  destruct (for_each_prefix_ok process_resource rs process_resource_additive Hok no_totals)
    as [t Ht].
  assert (Hf : total_followers t = 0).
  { rewrite (followers_sum _ _ Ht). by rewrite no_profile_no_follower_counts. }
  exists t. rewrite (aggregate_resources _ _ Hrs). repeat split; [done..| |].
  - intros s1 s2 b nw al ac pc pb cw bv Hup1 Hs1 Hal Hac Hup2 Hs2 Hnw Hrow Hcm Hrc Him Hrb.
    rewrite <- Hf in Him |- *.
    apply (endpoint_success s1 s2 p b nw al ac t pc pb cw bv); try done.
    by rewrite (aggregate_resources _ _ Hrs).
  - intros p' p'' rs' t' Hrs' Ht' Hrs''.
    rewrite (aggregate_resources _ _ Hrs') in Ht'.
    rewrite (aggregate_resources _ _ Hrs''), for_each_app, Ht, result_bind_ok.
    by rewrite resources_additive, Ht', result_bind_ok.
Qed.

End Stages.

(** ** The properties at the sample payloads *)

Lemma credibility_weight_is_seventh_feature_witness :
  ([PyJ (JInt 120); PyJ (JInt 30); PyJ (JInt 4); PyJ (JInt 10);
    PyJ (JFloat (float_of_int 15)); PyJ (JFloat (float_of_int 2));
    PyNd (NdItem Samples.half)] : list pyobj) !! 6%nat
  = Some (PyNd (NdItem Samples.half)).
Proof.
  destruct (credibility_weight_is_seventh_feature
              (Samples.serve Samples.one_profile_two_posts Samples.one_apt_500)
              (Samples.constant_1d Samples.half) (Samples.constant_2d Samples.seven)
              Samples.alice Samples.half
              [PyJ (JInt 120); PyJ (JInt 30); PyJ (JInt 4); PyJ (JInt 10);
               PyJ (JFloat (float_of_int 15)); PyJ (JFloat (float_of_int 2));
               PyNd (NdItem Samples.half)])
    as (s1 & s2 & p & b & nw & al & ac & t & _ & _ & _ & _ & _ & _ & _ & H & _).
  - intros f. left. reflexivity.
  - vm_compute. do 3 right. left. reflexivity.
  - exact H.
Defined.

Lemma upstream_status_is_forwarded_witness :
  (calculate_berries_endpoint (Samples.posts_status 404)
     (Samples.constant_1d Samples.half) (Samples.constant_2d Samples.seven)
     Samples.alice).2
  = HTTPException 404 "Error fetching external data" ∧
  (calculate_berries_endpoint (Samples.balances_status 503)
     (Samples.constant_1d Samples.half) (Samples.constant_2d Samples.seven)
     Samples.alice).2
  = HTTPException 503 "Error fetching external data".
Proof.
  split.
  - apply (upstream_status_is_forwarded (Samples.posts_status 404)
             (Samples.constant_1d Samples.half) (Samples.constant_2d Samples.seven)
             Samples.alice UserPosts 404 None).
    + vm_compute. left. reflexivity.
    + reflexivity.
    + reflexivity.
  - apply (upstream_status_is_forwarded (Samples.balances_status 503)
             (Samples.constant_1d Samples.half) (Samples.constant_2d Samples.seven)
             Samples.alice CoinBalances 503 None).
    + vm_compute. right. left. reflexivity.
    + reflexivity.
    + reflexivity.
Defined.

Lemma missing_field_is_malformed_upstream_data_witness :
  (calculate_berries_endpoint
     (Samples.serve (Samples.payload [Samples.profile (JInt 5); Samples.obj []])
        Samples.one_apt_500)
     (Samples.constant_1d Samples.half) (Samples.constant_2d Samples.seven)
     Samples.alice).2
  = malformed_upstream_data ∧
  (calculate_berries_endpoint
     (Samples.serve Samples.one_profile_two_posts
        (Samples.balances [Samples.balance "USDC" (JInt 3); Samples.obj []]))
     (Samples.constant_1d Samples.half) (Samples.constant_2d Samples.seven)
     Samples.alice).2
  = malformed_upstream_data.
Proof.
  split.
  - apply (missing_field_is_malformed_upstream_data
             (Samples.serve (Samples.payload [Samples.profile (JInt 5); Samples.obj []])
                Samples.one_apt_500)
             (Samples.constant_1d Samples.half) (Samples.constant_2d Samples.seven)
             Samples.alice 200 200
             (Samples.payload [Samples.profile (JInt 5); Samples.obj []])
             Samples.one_apt_500 (JInt 0) (JInt 0) no_totals).
    + reflexivity.
    + reflexivity.
    + left.
      apply (payload_resource_lacks_key _ [Samples.profile (JInt 5)] (Samples.obj []) []).
      * reflexivity.
      * repeat constructor. by exists (Totals 5 0 0 0).
      * by apply resource_no_type.
  - apply (missing_field_is_malformed_upstream_data
             (Samples.serve Samples.one_profile_two_posts
                (Samples.balances [Samples.balance "USDC" (JInt 3); Samples.obj []]))
             (Samples.constant_1d Samples.half) (Samples.constant_2d Samples.seven)
             Samples.alice 200 200 Samples.one_profile_two_posts
             (Samples.balances [Samples.balance "USDC" (JInt 3); Samples.obj []])
             (JFloat (float_of_int 15)) (JFloat (float_of_int 2)) (Totals 120 30 4 2)).
    + reflexivity.
    + reflexivity.
    + right. repeat split; try reflexivity.
      apply (payload_balance_lacks_key _ [Samples.balance "USDC" (JInt 3)]
               (Samples.obj []) []).
      * reflexivity.
      * repeat constructor. apply usdc_is_other_symbol.
      * by apply balance_no_metadata.
Defined.

(** C7, as the spec words it, fails in two ways. A profile whose [data] is
    [null] does not give the follower count, and a resource without a type
    tag that comes after a follower count that is no number lacks its tag;
    both requests end with the 500 of the last [except] clause, not with
    the one for unexpected data. *)
Lemma missing_field_can_be_an_internal_error :
  lacks_field JNull "followers_count" ∧
  calculate_berries_endpoint
    (Samples.serve (Samples.payload [Samples.profile_with_null_data]) Samples.one_apt_500)
    (Samples.constant_1d Samples.half) (Samples.constant_2d Samples.seven) Samples.alice
  = ([EvGet UserPosts "0xa11ce"], internal_server_error) ∧
  lacks_field (Samples.obj []) "type" ∧
  calculate_berries_endpoint
    (Samples.serve Samples.bad_count_then_no_type Samples.one_apt_500)
    (Samples.constant_1d Samples.half) (Samples.constant_2d Samples.seven) Samples.alice
  = ([EvGet UserPosts "0xa11ce"], internal_server_error) ∧
  internal_server_error ≠ malformed_upstream_data ∧
  ¬ (∀ upstream credibility_model influencer_model input s1 p resources resource data,
       upstream UserPosts (account_address input) = Response s1 (Some p) →
       is_success s1 = true →
       subscript p "resources" = Ok (JList resources) →
       In resource resources →
       profile_like resource = true →
       subscript resource "data" = Ok data →
       lacks_field data "followers_count" →
       (calculate_berries_endpoint upstream credibility_model influencer_model input).2
       = malformed_upstream_data) ∧
  ¬ (∀ upstream credibility_model influencer_model input s1 p resources resource,
       upstream UserPosts (account_address input) = Response s1 (Some p) →
       is_success s1 = true →
       subscript p "resources" = Ok (JList resources) →
       In resource resources →
       lacks_field resource "type" →
       (calculate_berries_endpoint upstream credibility_model influencer_model input).2
       = malformed_upstream_data).
Proof.
  assert (Hnull : lacks_field JNull "followers_count") by (intros x; discriminate).
  assert (Hempty : lacks_field (Samples.obj []) "type") by (intros x; discriminate).
  split; [exact Hnull|]. split; [reflexivity|].
  split; [exact Hempty|]. split; [reflexivity|].
  split; [discriminate|]. split.
  - intros H.
    specialize (H (Samples.serve (Samples.payload [Samples.profile_with_null_data])
                     Samples.one_apt_500)
                  (Samples.constant_1d Samples.half) (Samples.constant_2d Samples.seven)
                  Samples.alice 200
                  (Samples.payload [Samples.profile_with_null_data])
                  [Samples.profile_with_null_data] Samples.profile_with_null_data JNull
                  eq_refl eq_refl eq_refl).
    assert (Hin : In Samples.profile_with_null_data [Samples.profile_with_null_data])
      by (left; reflexivity).
    assert (Hprofile : profile_like Samples.profile_with_null_data = true) by reflexivity.
    assert (Hdata : subscript Samples.profile_with_null_data "data" = Ok JNull)
      by reflexivity.
    specialize (H Hin Hprofile Hdata Hnull). vm_compute in H. discriminate H.
  - intros H.
    specialize (H (Samples.serve Samples.bad_count_then_no_type Samples.one_apt_500)
                  (Samples.constant_1d Samples.half) (Samples.constant_2d Samples.seven)
                  Samples.alice 200 Samples.bad_count_then_no_type
                  [Samples.profile (JStr "many"); Samples.obj []] (Samples.obj [])
                  eq_refl eq_refl eq_refl).
    assert (Hin : In (Samples.obj []) [Samples.profile (JStr "many"); Samples.obj []])
      by (right; left; reflexivity).
    specialize (H Hin Hempty). vm_compute in H. discriminate H.
Qed.

Lemma absent_profile_is_not_an_error_witness :
  calculate_berries_endpoint
    (Samples.serve Samples.posts_only Samples.one_apt_500)
    (Samples.constant_1d Samples.half) (Samples.constant_2d Samples.seven) Samples.alice
  = ([EvGet UserPosts "0xa11ce"; EvGet CoinBalances "0xa11ce";
      EvPredict Credibility [PyJ (JInt 500); PyJ (JInt 5000)];
      EvPredict Influencer
        [PyJ (JInt 0); PyJ (JInt 30); PyJ (JInt 1); PyJ (JInt 10);
         PyJ (JFloat (float_of_int 15)); PyJ (JFloat Samples.half);
         PyNd (NdItem Samples.half)]],
     BerryCalculationOutput Samples.half Samples.seven).
Proof.
  destruct (absent_profile_is_not_an_error
              (Samples.serve Samples.posts_only Samples.one_apt_500)
              (Samples.constant_1d Samples.half) (Samples.constant_2d Samples.seven)
              Samples.alice Samples.posts_only
              [Samples.user_posts [Samples.post (JStr "10") [Samples.comment]];
               Samples.user_posts [Samples.post (JInt 20) []]])
    as (t & Hagg & _ & Hend & _).
  - reflexivity.
  - repeat constructor.
  - repeat constructor; [by exists (Totals 0 10 1 1) | by exists (Totals 0 20 0 1)].
  - assert (Ht : t = Totals 0 30 1 2) by (vm_compute in Hagg; congruence).
    subst t.
    apply (Hend 200 200 Samples.one_apt_500 (JInt 500) (JFloat (float_of_int 15))
             (JFloat Samples.half) (NdArray [NdItem Samples.half])
             (NdArray [NdArray [NdItem Samples.seven]]) Samples.half Samples.seven);
      reflexivity.
Defined.

(** * Further properties of the handler *)

(** ** Type tags *)

Lemma substring_all (s : string) : substring 0 (String.length s) s = s.
Proof. induction s as [|c s IH]; [done|]. cbn. by rewrite IH. Qed.

Lemma substring_after (p s : string) (m : nat) :
  substring (String.length p) m (p +:+ s) = substring 0 m s.
Proof. induction p as [|c p IH]; [done|]. cbn. apply IH. Qed.

Lemma length_append (p s : string) :
  String.length (p +:+ s) = (String.length p + String.length s)%nat.
Proof.
  induction p as [|c p IH]; [done|].
  simpl. by rewrite IH.
Qed.

Lemma endswith_append (p s : string) : endswith (p +:+ s) s = true.
Proof.
  unfold endswith. rewrite length_append.
  replace (String.length p + String.length s - String.length s)%nat
    with (String.length p) by lia.
  rewrite substring_after, substring_all, String.eqb_refl.
  rewrite andb_true_r. apply Nat.leb_le. lia.
Qed.

Lemma substring_split (s : string) (n : nat) :
  (n ≤ String.length s)%nat →
  s = substring 0 n s +:+ substring n (String.length s - n) s.
Proof.
  revert n. induction s as [|c s IH]; intros n Hn.
  - destruct n; [done | cbn in Hn; lia].
  - destruct n as [|n].
    + simpl. by rewrite substring_all.
    + cbn in Hn. cbn [substring String.length Nat.sub].
      change (String c s = String c (substring 0 n s +:+ substring n (String.length s - n) s)).
      f_equal. apply IH. lia.
Qed.

Lemma endswith_inv (s suffix : string) :
  endswith s suffix = true → ∃ p, s = p +:+ suffix.
Proof.
  unfold endswith. intros H. apply andb_true_iff in H as [Hle Heq].
  apply Nat.leb_le in Hle. apply String.eqb_eq in Heq.
  exists (substring 0 (String.length s - String.length suffix) s).
  pose proof (substring_split s (String.length s - String.length suffix)) as Hsplit.
  replace (String.length s - (String.length s - String.length suffix))%nat
    with (String.length suffix) in Hsplit by lia.
  rewrite Heq in Hsplit. apply Hsplit. lia.
Qed.

Lemma last_char_append (p s : string) (c : ascii) :
  last (list_ascii_of_string s) = Some c →
  last (list_ascii_of_string (p +:+ s)) = Some c.
Proof.
  intros Hs. induction p as [|a p IH]; [done|].
  change (String a p +:+ s) with (String a (p +:+ s)).
  cbn [list_ascii_of_string].
  destruct (list_ascii_of_string (p +:+ s)) as [|b l] eqn:E; [done|].
  exact IH.
Qed.

Lemma suffixes_exclude (ty : string) :
  endswith ty user_posts_suffix = true → endswith ty profile_suffix = false.
Proof.
  intros Hu. destruct (endswith ty profile_suffix) eqn:Hp; [|done].
  apply endswith_inv in Hu as [p ->]. apply endswith_inv in Hp as [q Hq].
  assert (H1 : last (list_ascii_of_string (p +:+ user_posts_suffix)) = Some "s"%char)
    by (by apply last_char_append).
  assert (H2 : last (list_ascii_of_string (q +:+ profile_suffix)) = Some "e"%char)
    by (by apply last_char_append).
  rewrite Hq, H2 in H1. discriminate H1.
Qed.

(** X1: the type tag is matched by its ending only. Under any prefix, a tag
    ending in the profile suffix makes the resource add its follower count,
    and a tag ending in the posts suffix makes it add its posts. *)
Theorem namespaced_tags_are_matched (prefix : string) (d : gmap string json)
    (data : json) (t : totals) :
  d !! "data" = Some data →
  (d !! "type" = Some (JStr (prefix +:+ profile_suffix)) →
   ∀ count n,
     subscript data "followers_count" = Ok count → py_int count = Ok n →
     process_resource t (JDict d)
     = Ok (Totals (total_followers t + n) (total_likes t) (total_comments t)
             (total_posts t))) ∧
  (d !! "type" = Some (JStr (prefix +:+ user_posts_suffix)) →
   ∀ posts,
     subscript data "posts" = Ok (JList posts) →
     process_resource t (JDict d) = for_each process_post posts t).
Proof.
  intros Hd. split.
  - intros Hty count n Hc Hn. unfold process_resource. cbn [subscript].
    rewrite Hty, result_bind_ok. cbn [str_endswith].
    rewrite endswith_append, result_bind_ok, Hd, result_bind_ok, Hc, result_bind_ok, Hn.
    done.
  - intros Hty posts Hps. unfold process_resource. cbn [subscript].
    rewrite Hty, !result_bind_ok. cbn [str_endswith].
    rewrite (suffixes_exclude _ (endswith_append prefix user_posts_suffix)).
    rewrite !result_bind_ok, endswith_append, Hd, result_bind_ok, Hps.
    done.
Qed.

Lemma namespaced_tags_are_matched_witness :
  process_resource (Totals 1 2 3 4) (Samples.profile (JStr " 120 "))
  = Ok (Totals 121 2 3 4) ∧
  process_resource (Totals 1 2 3 4)
    (Samples.user_posts [Samples.post (JInt 10) [Samples.comment]])
  = Ok (Totals 1 12 4 5).
Proof.
  split.
  - destruct (namespaced_tags_are_matched "0x1"
                (list_to_map
                   [("type", JStr "0x1::SocialMediaPlatform::Profile");
                    ("data", Samples.obj [("followers_count", JStr " 120 ")])])
                (Samples.obj [("followers_count", JStr " 120 ")])
                (Totals 1 2 3 4)) as [H _]; [reflexivity|].
    refine (H _ (JStr " 120 ") 120 _ _); reflexivity.
  - destruct (namespaced_tags_are_matched "0x1"
                (list_to_map
                   [("type", JStr "0x1::SocialMediaPlatform::UserPosts");
                    ("data", Samples.obj
                               [("posts", JList [Samples.post (JInt 10) [Samples.comment]])])])
                (Samples.obj [("posts", JList [Samples.post (JInt 10) [Samples.comment]])])
                (Totals 1 2 3 4)) as [_ H]; [reflexivity|].
    refine (H _ [Samples.post (JInt 10) [Samples.comment]] _); reflexivity.
Defined.

(** ** The first loop as a whole *)

Lemma add_totals_comm (a b : totals) : add_totals a b = add_totals b a.
Proof. unfold add_totals. f_equal; lia. Qed.

Lemma body_from (body : totals → json → result totals) (t δ : totals) (x : json) :
  additive body → body no_totals x = Ok δ → body t x = Ok (add_totals t δ).
Proof. intros Hadd Hx. by rewrite (Hadd t x), Hx. Qed.

Lemma body_raises_from (body : totals → json → result totals) (t : totals) (x : json)
    (e : exn) :
  additive body → body no_totals x = Raise e → body t x = Raise e.
Proof. intros Hadd Hx. by rewrite (Hadd t x), Hx. Qed.

Lemma for_each_ok_items (body : totals → json → result totals) (items : list json)
    (t t' : totals) :
  additive body →
  for_each body items t = Ok t' →
  Forall (λ x, ∃ δ, body no_totals x = Ok δ) items.
Proof.
  intros Hadd. revert t. induction items as [|x items IH]; intros t H; [constructor|].
  cbn [for_each] in H. rewrite (Hadd t x) in H.
  destruct (body no_totals x) as [δ|] eqn:Hx; [|discriminate H].
  rewrite !result_bind_ok in H. constructor; [by exists δ | by eapply IH].
Qed.

Lemma other_resource_skipped (r : json) (t : totals) :
  other_resource r → process_resource t r = Ok t.
Proof.
  intros (ty & Hty & Hp & Hu). unfold process_resource.
  rewrite Hty, !result_bind_ok. cbn [str_endswith].
  by rewrite Hp, !result_bind_ok, Hu.
Qed.

(** X2: a resource of another type, whatever else it holds, changes nothing:
    with or without it the aggregation gives the same totals or raises the
    same exception. *)
Theorem other_resources_are_ignored (p p' r : json) (before after : list json) :
  other_resource r →
  subscript p "resources" = Ok (JList (before ++ r :: after)) →
  subscript p' "resources" = Ok (JList (before ++ after)) →
  aggregate_user_posts p = aggregate_user_posts p'.
Proof.
  intros Hr Hp Hp'.
  rewrite (aggregate_resources _ _ Hp), (aggregate_resources _ _ Hp'), !for_each_app.
  destruct (for_each process_resource before no_totals) as [t|]; [|done].
  rewrite !result_bind_ok. cbn [for_each]. by rewrite (other_resource_skipped _ _ Hr).
Qed.

Lemma other_resources_are_ignored_witness :
  aggregate_user_posts
    (Samples.payload [Samples.profile (JInt 5); Samples.obj [("type", JStr "0x1::coin::Coin")];
                      Samples.profile (JInt 7)])
  = aggregate_user_posts Samples.two_profiles.
Proof.
  apply (other_resources_are_ignored _ _ (Samples.obj [("type", JStr "0x1::coin::Coin")])
           [Samples.profile (JInt 5)] [Samples.profile (JInt 7)]).
  - exists "0x1::coin::Coin". repeat split; reflexivity.
  - reflexivity.
  - reflexivity.
Defined.

Lemma for_each_permutation (body : totals → json → result totals) (l l' : list json) :
  additive body → l ≡ₚ l' →
  ∀ t r, for_each body l t = Ok r → for_each body l' t = Ok r.
Proof.
  intros Hadd. induction 1 as [|x l l' _ IH|x y l|l l' l'' _ IH1 _ IH2]; intros t r H.
  - done.
  - cbn [for_each] in *. destruct (body t x) as [t1|]; [|discriminate H].
    rewrite result_bind_ok in *. by apply IH.
  - cbn [for_each] in *.
    rewrite (Hadd t y) in H. destruct (body no_totals y) as [δy|] eqn:Hy; [|discriminate H].
    rewrite !result_bind_ok in H.
    rewrite (Hadd _ x) in H. destruct (body no_totals x) as [δx|] eqn:Hx; [|discriminate H].
    rewrite !result_bind_ok in H.
    rewrite (body_from body t δx x Hadd Hx), result_bind_ok.
    rewrite (body_from body _ δy y Hadd Hy), result_bind_ok.
    rewrite <- H. f_equal.
    rewrite !add_totals_assoc. f_equal. apply add_totals_comm.
  - by apply IH2, IH1.
Qed.

(** X3: the totals do not depend on the order of the resources: when the
    aggregation of a payload succeeds, it gives the same totals on any
    payload whose resources are the same ones in another order. *)
Theorem totals_ignore_resource_order (p p' : json) (rs rs' : list json) (t : totals) :
  subscript p "resources" = Ok (JList rs) →
  subscript p' "resources" = Ok (JList rs') →
  rs ≡ₚ rs' →
  aggregate_user_posts p = Ok t →
  aggregate_user_posts p' = Ok t.
Proof.
  intros Hp Hp' Hperm. rewrite (aggregate_resources _ _ Hp), (aggregate_resources _ _ Hp').
  by apply for_each_permutation; [apply process_resource_additive|].
Qed.

Lemma totals_ignore_resource_order_witness :
  aggregate_user_posts
    (Samples.payload
       [Samples.user_posts [Samples.post (JInt 10) [Samples.comment; Samples.comment;
                                                    Samples.comment];
                            Samples.post (JInt 20) [Samples.comment]];
        Samples.profile (JInt 120)])
  = Ok (Totals 120 30 4 2).
Proof.
  apply (totals_ignore_resource_order Samples.one_profile_two_posts _
           [Samples.profile (JInt 120);
            Samples.user_posts [Samples.post (JInt 10) [Samples.comment; Samples.comment;
                                                         Samples.comment];
                                Samples.post (JInt 20) [Samples.comment]]]
           [Samples.user_posts [Samples.post (JInt 10) [Samples.comment; Samples.comment;
                                                         Samples.comment];
                                Samples.post (JInt 20) [Samples.comment]];
            Samples.profile (JInt 120)]).
  - reflexivity.
  - reflexivity.
  - apply Permutation_swap.
  - reflexivity.
Defined.

(** X4: the aggregation succeeds exactly when every resource, taken alone,
    is processed without raising; one faulty resource anywhere fails it. *)
Theorem aggregation_succeeds_iff_each_resource_does (p : json) (rs : list json) :
  subscript p "resources" = Ok (JList rs) →
  (∃ t, aggregate_user_posts p = Ok t) ↔ Forall resource_ok rs.
Proof.
  intros Hp. rewrite (aggregate_resources _ _ Hp). split.
  - intros [t Ht]. by eapply for_each_ok_items; [apply process_resource_additive|].
  - intros Hok. by apply for_each_prefix_ok; [apply process_resource_additive|].
Qed.

Lemma aggregation_succeeds_iff_each_resource_does_witness :
  (∃ t, aggregate_user_posts Samples.two_profiles = Ok t) ↔
  Forall resource_ok [Samples.profile (JInt 5); Samples.profile (JInt 7)].
Proof.
  apply (aggregation_succeeds_iff_each_resource_does Samples.two_profiles). reflexivity.
Defined.

(** X5: the exception reported is that of the first resource that raises
    one; the resources after it are not looked at. *)
Theorem first_faulty_resource_decides (p r : json) (before after : list json) (e : exn) :
  subscript p "resources" = Ok (JList (before ++ r :: after)) →
  Forall resource_ok before →
  process_resource no_totals r = Raise e →
  aggregate_user_posts p = Raise e.
Proof.
  intros Hp Hbefore Hr. rewrite (aggregate_resources _ _ Hp), for_each_app.
  destruct (for_each_prefix_ok process_resource before process_resource_additive
              Hbefore no_totals) as [t ->].
  rewrite result_bind_ok. cbn [for_each].
  by rewrite (body_raises_from _ t r e process_resource_additive Hr).
Qed.

Lemma first_faulty_resource_decides_witness :
  aggregate_user_posts
    (Samples.payload [Samples.profile (JInt 5); Samples.profile (JStr "many");
                      Samples.obj []])
  = Raise ValueError.
Proof.
  apply (first_faulty_resource_decides _ (Samples.profile (JStr "many"))
           [Samples.profile (JInt 5)] [Samples.obj []]).
  - reflexivity.
  - repeat constructor. by exists (Totals 5 0 0 0).
  - reflexivity.
Defined.

Lemma py_len_nonneg (obj : json) (n : Z) : py_len obj = Ok n → 0 ≤ n.
Proof. destruct obj; intros [= <-]; lia. Qed.

Lemma process_post_sane (t t' : totals) (post : json) :
  sane_totals t → process_post t post = Ok t' → sane_totals t'.
Proof.
  intros (Hposts & Hcomments & _) H. unfold process_post in H.
  apply result_bind_inv in H as (lc & _ & H). apply result_bind_inv in H as (n & _ & H).
  apply result_bind_inv in H as (cs & _ & H). apply result_bind_inv in H as (k & Hk & H).
  apply py_len_nonneg in Hk. inversion H; subst t'; clear H.
  unfold sane_totals; cbn. repeat split; lia.
Qed.

Lemma for_each_keeps (P : totals → Prop) (body : totals → json → result totals)
    (items : list json) :
  (∀ t t' x, P t → body t x = Ok t' → P t') →
  ∀ t t', P t → for_each body items t = Ok t' → P t'.
Proof.
  intros Hbody. induction items as [|x items IH]; intros t t' Ht H; cbn [for_each] in H.
  - by inversion H; subst.
  - apply result_bind_inv in H as (t1 & H1 & H). eapply IH; [|exact H]. by eapply Hbody.
Qed.

Lemma process_resource_sane (t t' : totals) (r : json) :
  sane_totals t → process_resource t r = Ok t' → sane_totals t'.
Proof.
  intros Ht H. unfold process_resource in H.
  apply result_bind_inv in H as (ty & _ & H). apply result_bind_inv in H as ([] & _ & H).
  - apply result_bind_inv in H as (d & _ & H). apply result_bind_inv in H as (fc & _ & H).
    apply result_bind_inv in H as (n & _ & H). inversion H; subst t'; clear H.
    exact Ht.
  - apply result_bind_inv in H as (ty' & _ & H).
    apply result_bind_inv in H as ([] & _ & H).
    + apply result_bind_inv in H as (d & _ & H). apply result_bind_inv in H as (ps & _ & H).
      apply result_bind_inv in H as (items & _ & H).
      by eapply (for_each_keeps sane_totals process_post items process_post_sane).
    + by inversion H; subst.
Qed.

(** X6: the totals of a payload never hold a negative post or comment
    counter, and hold likes or comments only together with posts. *)
Theorem totals_are_sane (p : json) (t : totals) :
  aggregate_user_posts p = Ok t → sane_totals t.
Proof.
  unfold aggregate_user_posts. intros H.
  apply result_bind_inv in H as (rs & _ & H). apply result_bind_inv in H as (items & _ & H).
  eapply (for_each_keeps sane_totals process_resource items process_resource_sane);
    [|exact H].
  unfold sane_totals; cbn. by repeat split.
Qed.

Lemma totals_are_sane_witness : sane_totals (Totals 120 30 4 2).
Proof. apply (totals_are_sane Samples.one_profile_two_posts). reflexivity. Defined.

Lemma chars_nonempty (s : string) : s ≠ "" → ∃ c rest, chars s = JStr c :: rest.
Proof.
  destruct s as [|c s]; [done|]. intros _. unfold chars.
  cbn [list_ascii_of_string split_chars].
  destruct (split_chars (list_ascii_of_string s)) as [|[|c' g] gs];
    [| |destruct (is_continuation c')]; cbn; eauto.
Qed.

(** X7: when [resources] is not a list, the loop runs over what Python
    iterates there. An empty object or an empty string gives totals of 0;
    anything else raises [TypeError], either because it cannot be iterated
    or because the keys and characters it yields cannot be subscripted. *)
Theorem resources_other_than_a_list (p v : json) :
  subscript p "resources" = Ok v →
  (∀ items, v ≠ JList items) →
  (v = JDict ∅ ∨ v = JStr "" → aggregate_user_posts p = Ok no_totals) ∧
  (v ≠ JDict ∅ → v ≠ JStr "" → aggregate_user_posts p = Raise TypeError).
Proof.
  intros Hp Hlist. unfold aggregate_user_posts. rewrite Hp, result_bind_ok. split.
  - intros [-> | ->]; cbn [py_iter]; [by rewrite map_to_list_empty | done].
  - intros Hdict Hstr. destruct v as [| | | |s|items|d]; try done.
    + destruct (chars_nonempty s) as (c & rest & Hc); [congruence|].
      cbn [py_iter]. by rewrite Hc.
    + by destruct (Hlist items).
    + cbn [py_iter]. destruct (map_to_list d) as [|[k x] l] eqn:E.
      * apply map_to_list_empty_iff in E. congruence.
      * done.
Qed.

Lemma resources_other_than_a_list_witness :
  aggregate_user_posts (Samples.obj [("resources", Samples.obj [])]) = Ok no_totals ∧
  aggregate_user_posts (Samples.obj [("resources", JInt 3)]) = Raise TypeError.
Proof.
  split.
  - destruct (resources_other_than_a_list
                (Samples.obj [("resources", Samples.obj [])]) (JDict ∅)) as [H _];
      [reflexivity | discriminate |].
    apply H. left. reflexivity.
  - destruct (resources_other_than_a_list
                (Samples.obj [("resources", JInt 3)]) (JInt 3)) as [_ H];
      [reflexivity | discriminate |].
    apply H; discriminate.
Defined.

(** ** Reducing a prediction *)

(** X8: the reduction gives a scalar only for a prediction whose first
    element is that scalar (1-D) or whose first row starts with it (2-D),
    whatever the other elements are; and the only exception it raises is
    [IndexError]. *)
Theorem scalar_comes_from_first_element (a : ndarray) :
  (∀ v, reduce_prediction a = Ok (NdItem v) →
        (∃ rest, a = NdArray (NdItem v :: rest)) ∨
        (∃ row rest, a = NdArray (NdArray (NdItem v :: row) :: rest))) ∧
  (∀ e, reduce_prediction a = Raise e → e = IndexError).
Proof.
  unfold reduce_prediction. split.
  - intros v H. destruct a as [x|[|x rest]]; [done|done|].
    destruct x as [x|[|y row]].
    + cbn in H. left. inversion H; subst. eauto.
    + cbn in H. discriminate H.
    + right. cbn [ndim] in H.
      destruct (1 + (1 + ndim y) =? 1) eqn:E.
      * cbn in H. discriminate H.
      * cbn in H. inversion H; subst. eauto.
  - intros e H. destruct a as [x|[|x rest]]; cbn in H; [congruence..|].
    destruct (1 + ndim x =? 1); cbn in H; [congruence|].
    destruct x as [x|[|y row]]; cbn in H; congruence.
Qed.

Lemma scalar_comes_from_first_element_witness :
  (∃ rest, NdArray [NdItem Samples.half; NdItem Samples.seven]
           = NdArray (NdItem Samples.half :: rest)) ∨
  (∃ row rest, NdArray [NdItem Samples.half; NdItem Samples.seven]
               = NdArray (NdArray (NdItem Samples.half :: row) :: rest)).
Proof.
  apply (proj1 (scalar_comes_from_first_element
                  (NdArray [NdItem Samples.half; NdItem Samples.seven]))).
  reflexivity.
Defined.

(** ** The order of the calls and the stages that fail *)

Section Sequencing.

Context (upstream : fetcher → string → http_outcome).
Context (credibility_model influencer_model : list pyobj → result ndarray).
Context (input : BerryCalculationInput).

#[local] Abbreviation address := (account_address input).
#[local] Abbreviation endpoint :=
  (calculate_berries_endpoint upstream credibility_model influencer_model input).

Lemma posts_stage_raises (s1 : Z) (p : json) (e : exn) :
  upstream UserPosts address = Response s1 (Some p) →
  is_success s1 = true →
  aggregate_user_posts p = Raise e →
  endpoint = ([EvGet UserPosts address], handle e).
Proof.
  intros Hup Hs Hagg. open_endpoint. rewrite Hup, Hs. cbn. rewrite Hagg. by cbn.
Qed.

(** X9: a request makes its calls in one fixed order, each at most once:
    the user-posts GET, which is always made, the balances GET, the
    credibility model, the influencer model. *)
Theorem calls_follow_one_order :
  ∃ f1 f2,
    (calculate_berries_endpoint upstream credibility_model influencer_model input).1
      `prefix_of`
      [EvGet UserPosts (account_address input); EvGet CoinBalances (account_address input);
       EvPredict Credibility f1; EvPredict Influencer f2] ∧
    [EvGet UserPosts (account_address input)]
      `prefix_of`
      (calculate_berries_endpoint upstream credibility_model influencer_model input).1.
Proof.
  open_endpoint.
  destruct (upstream UserPosts address) as [|s1 [p|]]; cbn;
    [by exists [], []; split; eexists | | by destruct (is_success s1); cbn;
                                          exists [], []; split; eexists].
  destruct (is_success s1); cbn; [|by exists [], []; split; eexists].
  destruct (aggregate_user_posts p) as [t|]; cbn; [|by exists [], []; split; eexists].
  destruct (average_per_day (total_likes t) (total_posts t)) as [al|]; cbn;
    [|by exists [], []; split; eexists].
  destruct (average_per_day (total_comments t) (total_posts t)) as [ac|]; cbn;
    [|by exists [], []; split; eexists].
  destruct (upstream CoinBalances address) as [|s2 [b|]]; cbn;
    [by exists [], []; split; eexists | | by destruct (is_success s2); cbn;
                                          exists [], []; split; eexists].
  destruct (is_success s2); cbn; [|by exists [], []; split; eexists].
  destruct (extract_onchain_net_worth b) as [nw|]; cbn;
    [|by exists [], []; split; eexists].
  destruct (np_array [PyJ nw; PyJ (JInt 5000)]) as [row|] eqn:Hrow; cbn;
    [|by exists [], []; split; eexists].
  apply np_array_ok in Hrow as ->.
  destruct (credibility_model _) as [pc|]; cbn;
    [|by exists [PyJ nw; PyJ (JInt 5000)], []; split; eexists].
  destruct (reduce_prediction pc) as [cw|]; cbn;
    [|by exists [PyJ nw; PyJ (JInt 5000)], []; split; eexists].
  rewrite berries_input_features. cbn.
  destruct (np_array _) as [row|] eqn:Hrow; cbn;
    [|by exists [PyJ nw; PyJ (JInt 5000)], []; split; eexists].
  apply np_array_ok in Hrow as ->.
  destruct (influencer_model _) as [pb|]; cbn;
    [destruct (reduce_prediction pb); cbn|];
    (eexists _, _; split; eexists; reflexivity).
Qed.


(** X11: the credibility model is only called once numpy has built the
    array of its row: the row is made of the net worth extracted from the
    balances payload and of the constant 5000, and the net worth is not a
    list. *)
Theorem credibility_row_is_net_worth_and_5000 (features : list pyobj) :
  In (EvPredict Credibility features) endpoint.1 →
  ∃ (s2 : Z) (b nw : json),
    upstream CoinBalances address = Response s2 (Some b) ∧
    extract_onchain_net_worth b = Ok nw ∧
    np_array [PyJ nw; PyJ (JInt 5000)] = Ok features ∧
    features = [PyJ nw; PyJ (JInt 5000)] ∧
    (∀ items, nw ≠ JList items).
Proof.
  open_endpoint.
  destruct (upstream UserPosts address) as [|s1 [p|]]; cbn;
    [not_called | | destruct (is_success s1); cbn; not_called].
  destruct (is_success s1); cbn; [|not_called].
  destruct (aggregate_user_posts p) as [t|]; cbn; [|not_called].
  destruct (average_per_day (total_likes t) (total_posts t)) as [al|]; cbn;
    [|not_called].
  destruct (average_per_day (total_comments t) (total_posts t)) as [ac|]; cbn;
    [|not_called].
  destruct (upstream CoinBalances address) as [|s2 [b|]] eqn:Hup2; cbn;
    [not_called | | destruct (is_success s2); cbn; not_called].
  destruct (is_success s2); cbn; [|not_called].
  destruct (extract_onchain_net_worth b) as [nw|] eqn:Hnw; cbn; [|not_called].
  destruct (np_array [PyJ nw; PyJ (JInt 5000)]) as [row|] eqn:Hrow; cbn; [|not_called].
  pose proof (np_array_ok _ _ Hrow) as ->.
  assert (Hnw_list : ∀ items, nw ≠ JList items).
  { intros items ->.
    rewrite (np_array_sequence_before_scalar (PyJ (JList items)) (PyJ (JInt 5000))) in Hrow;
      [done | apply common_shape_not_scalar | done]. }
  destruct (credibility_model _) as [pc|]; cbn;
    [destruct (reduce_prediction pc) as [cw|]; cbn|];
    [rewrite berries_input_features; cbn;
     destruct (np_array (PyJ (JInt (total_followers t)) :: _)) as [row|] eqn:Hrow2; cbn;
     [apply np_array_ok in Hrow2 as ->;
      destruct (influencer_model _) as [pb|]; cbn;
      [destruct (reduce_prediction pb); cbn|] |] | |];
    intros HIn;
    repeat (destruct HIn as [HIn|HIn];
            [try discriminate HIn; inversion HIn; subst features;
             by exists s2, b, nw|]);
    destruct HIn.
Qed.

(** X12: when the user-posts payload cannot be aggregated or an average
    cannot be computed, the request ends there: the balances service and
    the models are not called, and the exception goes through the three
    [except] clauses. *)
Theorem user_posts_failure_ends_the_request (s1 : Z) (p : json) (e : exn) :
  upstream UserPosts address = Response s1 (Some p) →
  is_success s1 = true →
  aggregate_user_posts p = Raise e ∨
  (∃ t, aggregate_user_posts p = Ok t ∧
        (average_per_day (total_likes t) (total_posts t) = Raise e ∨
         (∃ al, average_per_day (total_likes t) (total_posts t) = Ok al) ∧
         average_per_day (total_comments t) (total_posts t) = Raise e)) →
  endpoint = ([EvGet UserPosts address], handle e).
Proof.
  intros Hup Hs [Hagg | (t & Hagg & [Hal | [[al Hal] Hac]])].
  - by apply (posts_stage_raises s1 p).
  - open_endpoint. rewrite Hup, Hs. cbn. rewrite Hagg. cbn. rewrite Hal. by cbn.
  - open_endpoint. rewrite Hup, Hs. cbn. rewrite Hagg. cbn. rewrite Hal. cbn.
    rewrite Hac. by cbn.
Qed.

(** X13: a fetch that was made and got no answer, or a 2xx answer whose
    body is not JSON, ends the request with the 500 of the last [except]
    clause, and no call follows it. *)
Theorem unusable_answer_is_an_internal_error (f : fetcher) :
  In (EvGet f address) endpoint.1 →
  upstream f address = NoResponse ∨
  (∃ s, upstream f address = Response s None ∧ is_success s = true) →
  endpoint.2 = internal_server_error ∧
  endpoint.1
  = match f with
    | UserPosts => [EvGet UserPosts address]
    | CoinBalances => [EvGet UserPosts address; EvGet CoinBalances address]
    end.
Proof.
  intros HIn Hup. revert HIn. open_endpoint. destruct f.
  - intros _. destruct Hup as [-> | (s & -> & Hs)]; [by cbn|]. rewrite Hs. by cbn.
  - destruct (upstream UserPosts address) as [|s1 [p|]] eqn:Hup1; cbn;
      [not_called | | destruct (is_success s1); cbn; not_called].
    destruct (is_success s1); cbn; [|not_called].
    destruct (aggregate_user_posts p) as [t|]; cbn; [|not_called].
    destruct (average_per_day (total_likes t) (total_posts t)) as [al|]; cbn;
      [|not_called].
    destruct (average_per_day (total_comments t) (total_posts t)) as [ac|]; cbn;
      [|not_called].
    intros _. destruct Hup as [-> | (s & -> & Hs)]; [by cbn|]. rewrite Hs. by cbn.
Qed.

(** X14: once numpy has built the credibility row, an exception raised by
    the model or by the reduction of its prediction ends the request before
    the influencer model is called and goes through the three [except]
    clauses like any other: a [KeyError] raised by the model is reported as
    unexpected data in the external response. *)
Theorem credibility_failure_ends_the_request
    (s1 s2 : Z) (p b nw al ac : json) (t : totals) (e : exn) :
  upstream UserPosts address = Response s1 (Some p) →
  is_success s1 = true →
  aggregate_user_posts p = Ok t →
  average_per_day (total_likes t) (total_posts t) = Ok al →
  average_per_day (total_comments t) (total_posts t) = Ok ac →
  upstream CoinBalances address = Response s2 (Some b) →
  is_success s2 = true →
  extract_onchain_net_worth b = Ok nw →
  np_array [PyJ nw; PyJ (JInt 5000)] = Ok [PyJ nw; PyJ (JInt 5000)] →
  credibility_model [PyJ nw; PyJ (JInt 5000)] = Raise e ∨
  (∃ pc, credibility_model [PyJ nw; PyJ (JInt 5000)] = Ok pc ∧
         reduce_prediction pc = Raise e) →
  endpoint
  = ([EvGet UserPosts address; EvGet CoinBalances address;
      EvPredict Credibility [PyJ nw; PyJ (JInt 5000)]],
     handle e) ∧
  (∀ k, e = KeyError k → endpoint.2 = malformed_upstream_data).
Proof.
  intros Hup1 Hs1 Hagg Hal Hac Hup2 Hs2 Hnw Hrow Hcm.
  assert (H : endpoint
              = ([EvGet UserPosts address; EvGet CoinBalances address;
                  EvPredict Credibility [PyJ nw; PyJ (JInt 5000)]], handle e)).
  { open_endpoint. rewrite Hup1, Hs1. cbn. rewrite Hagg. cbn. rewrite Hal. cbn.
    rewrite Hac. cbn. rewrite Hup2, Hs2. cbn. rewrite Hnw. cbn. rewrite Hrow. cbn.
    destruct Hcm as [-> | (pc & -> & Hrc)]; cbn; [done|]. rewrite Hrc. by cbn. }
  split; [exact H|]. intros k ->. by rewrite H.
Qed.

(** X15: a user-posts body that is JSON but not an object is a type error,
    not a missing key: the response is the 500 of the last [except] clause. *)
Theorem payload_that_is_no_object (s1 : Z) (p : json) :
  upstream UserPosts address = Response s1 (Some p) →
  is_success s1 = true →
  (∀ d, p ≠ JDict d) →
  endpoint = ([EvGet UserPosts address], internal_server_error).
Proof.
  intros Hup Hs Hp.
  apply (posts_stage_raises s1 p TypeError Hup Hs).
  unfold aggregate_user_posts. destruct p; try done. by destruct (Hp d).
Qed.

End Sequencing.

(** ** The further properties at the sample payloads *)


Lemma credibility_row_is_net_worth_and_5000_witness :
  ∃ (s2 : Z) (b nw : json),
    Samples.serve Samples.one_profile_two_posts Samples.one_apt_500 CoinBalances
      (account_address Samples.alice) = Response s2 (Some b) ∧
    extract_onchain_net_worth b = Ok nw ∧
    np_array [PyJ nw; PyJ (JInt 5000)] = Ok [PyJ (JInt 500); PyJ (JInt 5000)] ∧
    [PyJ (JInt 500); PyJ (JInt 5000)] = [PyJ nw; PyJ (JInt 5000)] ∧
    (∀ items, nw ≠ JList items).
Proof.
  apply (credibility_row_is_net_worth_and_5000
           (Samples.serve Samples.one_profile_two_posts Samples.one_apt_500)
           (Samples.constant_1d Samples.half) (Samples.constant_2d Samples.seven)
           Samples.alice [PyJ (JInt 500); PyJ (JInt 5000)]).
  vm_compute. do 2 right. left. reflexivity.
Defined.

Lemma user_posts_failure_ends_the_request_witness :
  calculate_berries_endpoint
    (Samples.serve (Samples.payload [Samples.profile (JStr "many")]) Samples.one_apt_500)
    (Samples.constant_1d Samples.half) (Samples.constant_2d Samples.seven) Samples.alice
  = ([EvGet UserPosts "0xa11ce"], internal_server_error).
Proof.
  apply (user_posts_failure_ends_the_request
           (Samples.serve (Samples.payload [Samples.profile (JStr "many")])
              Samples.one_apt_500)
           (Samples.constant_1d Samples.half) (Samples.constant_2d Samples.seven)
           Samples.alice 200 (Samples.payload [Samples.profile (JStr "many")]) ValueError).
  - reflexivity.
  - reflexivity.
  - left. reflexivity.
Defined.

Lemma unusable_answer_is_an_internal_error_witness :
  (calculate_berries_endpoint (Samples.balances_status 200)
     (Samples.constant_1d Samples.half) (Samples.constant_2d Samples.seven)
     Samples.alice).2
  = internal_server_error ∧
  (calculate_berries_endpoint (Samples.balances_status 200)
     (Samples.constant_1d Samples.half) (Samples.constant_2d Samples.seven)
     Samples.alice).1
  = [EvGet UserPosts "0xa11ce"; EvGet CoinBalances "0xa11ce"].
Proof.
  apply (unusable_answer_is_an_internal_error (Samples.balances_status 200)
           (Samples.constant_1d Samples.half) (Samples.constant_2d Samples.seven)
           Samples.alice CoinBalances).
  - vm_compute. right. left. reflexivity.
  - right. exists 200. split; reflexivity.
Defined.

Lemma credibility_failure_ends_the_request_witness :
  (calculate_berries_endpoint
     (Samples.serve Samples.one_profile_two_posts Samples.one_apt_500)
     (λ _, Raise (KeyError "n_features")) (Samples.constant_2d Samples.seven)
     Samples.alice).2
  = malformed_upstream_data.
Proof.
  destruct (credibility_failure_ends_the_request
              (Samples.serve Samples.one_profile_two_posts Samples.one_apt_500)
              (λ _, Raise (KeyError "n_features")) (Samples.constant_2d Samples.seven)
              Samples.alice 200 200 Samples.one_profile_two_posts Samples.one_apt_500
              (JInt 500) (JFloat (float_of_int 15)) (JFloat (float_of_int 2))
              (Totals 120 30 4 2) (KeyError "n_features")) as [_ H];
    [reflexivity | reflexivity | reflexivity | reflexivity | reflexivity | reflexivity
    | reflexivity | reflexivity | reflexivity | left; reflexivity | ].
  apply (H "n_features"). reflexivity.
Defined.

Lemma payload_that_is_no_object_witness :
  calculate_berries_endpoint (Samples.serve (JList []) Samples.one_apt_500)
    (Samples.constant_1d Samples.half) (Samples.constant_2d Samples.seven) Samples.alice
  = ([EvGet UserPosts "0xa11ce"], internal_server_error).
Proof.
  apply (payload_that_is_no_object (Samples.serve (JList []) Samples.one_apt_500)
           (Samples.constant_1d Samples.half) (Samples.constant_2d Samples.seven)
           Samples.alice 200 (JList [])).
  - reflexivity.
  - reflexivity.
  - discriminate.
Defined.

(** ** What the totals add up *)

Lemma for_each_cons_additive (body : totals → json → result totals) (x : json)
    (items : list json) :
  additive body →
  for_each body (x :: items) no_totals
  = (body no_totals x ≫= λ t, for_each body items no_totals ≫= λ δ, Ok (add_totals t δ)).
Proof.
  intros Hadd. cbn [for_each]. destruct (body no_totals x) as [t|]; [|done].
  rewrite !result_bind_ok. apply (for_each_additive body Hadd items t JNull).
Qed.

Lemma sum_Z_app (l1 l2 : list Z) : sum_Z (l1 ++ l2) = sum_Z l1 + sum_Z l2.
Proof. induction l1 as [|n l1 IH]; [done|]. cbn [app]. rewrite !sum_Z_cons, IH. lia. Qed.

Lemma post_delta (post : json) (δ : totals) :
  process_post no_totals post = Ok δ →
  δ = Totals 0 (likes_of post) (comments_of post) 1.
Proof.
  unfold process_post, likes_of, comments_of. intros H.
  apply result_bind_inv in H as (lc & Hlc & H). apply result_bind_inv in H as (n & Hn & H).
  apply result_bind_inv in H as (cs & Hcs & H). apply result_bind_inv in H as (k & Hk & H).
  rewrite Hlc, Hcs, !result_bind_ok, Hn, Hk. by inversion H.
Qed.

Lemma posts_delta (posts : list json) (δ : totals) :
  for_each process_post posts no_totals = Ok δ →
  δ = Totals 0 (sum_Z (likes_of <$> posts)) (sum_Z (comments_of <$> posts))
        (Z.of_nat (length posts)).
Proof.
  revert δ. induction posts as [|post posts IH]; intros δ H.
  - by inversion H.
  - rewrite (for_each_cons_additive _ _ _ process_post_additive) in H.
    apply result_bind_inv in H as (t1 & H1 & H).
    apply result_bind_inv in H as (δ' & Hδ' & H).
    apply post_delta in H1. apply IH in Hδ'. inversion H; subst; clear H.
    unfold add_totals. cbn [total_followers total_likes total_comments total_posts].
    rewrite !fmap_cons, !sum_Z_cons. cbn [length]. f_equal; lia.
Qed.

Lemma resource_delta (r : json) (δ : totals) :
  process_resource no_totals r = Ok δ →
  total_likes δ = sum_Z (likes_of <$> posts_of r) ∧
  total_comments δ = sum_Z (comments_of <$> posts_of r) ∧
  total_posts δ = Z.of_nat (length (posts_of r)).
Proof.
  unfold process_resource, posts_of, profile_like. intros H.
  apply result_bind_inv in H as (ty & Hty & H). rewrite Hty.
  apply result_bind_inv in H as (b & Hb & H).
  destruct ty; try discriminate. cbn in Hb. inversion Hb; subst b; clear Hb.
  destruct (endswith s profile_suffix).
  - apply result_bind_inv in H as (d & _ & H). apply result_bind_inv in H as (fc & _ & H).
    apply result_bind_inv in H as (n & _ & H). by inversion H.
  - rewrite Hty, !result_bind_ok in H. rewrite result_bind_ok. cbn [str_endswith] in *.
    rewrite result_bind_ok in H.
    destruct (endswith s user_posts_suffix).
    + apply result_bind_inv in H as (d & Hd & H).
      apply result_bind_inv in H as (ps & Hps & H).
      apply result_bind_inv in H as (items & Hitems & H).
      rewrite Hd, result_bind_ok, Hps, result_bind_ok, Hitems.
      apply posts_delta in H. by subst δ.
    + by inversion H.
Qed.

Lemma resources_delta (rs : list json) (t : totals) :
  for_each process_resource rs no_totals = Ok t →
  total_likes t = sum_Z (likes_of <$> concat (posts_of <$> rs)) ∧
  total_comments t = sum_Z (comments_of <$> concat (posts_of <$> rs)) ∧
  total_posts t = Z.of_nat (length (concat (posts_of <$> rs))).
Proof.
  revert t. induction rs as [|r rs IH]; intros t H.
  - by inversion H.
  - rewrite aggregate_cons in H.
    apply result_bind_inv in H as (t1 & H1 & H).
    apply result_bind_inv in H as (δ & Hδ & H).
    apply resource_delta in H1 as (Hl1 & Hc1 & Hp1). apply IH in Hδ as (Hl & Hc & Hp).
    inversion H; subst t; clear H.
    cbn [add_totals total_likes total_comments total_posts].
    rewrite fmap_cons. cbn [concat]. rewrite !fmap_app, !sum_Z_app, length_app.
    rewrite Hl1, Hc1, Hp1, Hl, Hc, Hp. repeat split; lia.
Qed.

(** X16: the likes, the comments and the post counter of a payload are
    sums over the posts of its posts-like resources: the like counts, the
    lengths of the comment collections, and one per post. *)
Theorem totals_are_sums_over_posts (p : json) (rs : list json) (t : totals) :
  subscript p "resources" = Ok (JList rs) →
  aggregate_user_posts p = Ok t →
  total_likes t = sum_Z (likes_of <$> concat (posts_of <$> rs)) ∧
  total_comments t = sum_Z (comments_of <$> concat (posts_of <$> rs)) ∧
  total_posts t = Z.of_nat (length (concat (posts_of <$> rs))).
Proof.
  intros Hrs H. rewrite (aggregate_resources _ _ Hrs) in H. by apply resources_delta.
Qed.

Lemma totals_are_sums_over_posts_witness :
  total_likes (Totals 0 30 1 2) = sum_Z [10; 20] ∧
  total_comments (Totals 0 30 1 2) = sum_Z [1; 0] ∧
  total_posts (Totals 0 30 1 2) = 2.
Proof.
  apply (totals_are_sums_over_posts Samples.posts_only
           [Samples.user_posts [Samples.post (JStr "10") [Samples.comment]];
            Samples.user_posts [Samples.post (JInt 20) []]]); reflexivity.
Defined.

(** ** When the net worth is found *)

Lemma eq_str_true (symbol : json) (s : string) : eq_str symbol s = true → symbol = JStr s.
Proof.
  destruct symbol; try discriminate. cbn. intros H. by apply String.eqb_eq in H as ->.
Qed.

Lemma eq_str_false_inv (symbol : json) (s : string) :
  eq_str symbol s = false → symbol ≠ JStr s.
Proof. intros H ->. cbn in H. by rewrite String.eqb_refl in H. Qed.

Lemma scan_balances_ok (bs : list json) (nw0 nw : json) :
  scan_balances bs nw0 = Ok nw →
  (Forall other_symbol bs ∧ nw = nw0) ∨
  (∃ before b after,
     bs = before ++ b :: after ∧ Forall other_symbol before ∧ is_apt b ∧
     nw = usd_amount b).
Proof.
  induction bs as [|b bs IH]; intros H; cbn [scan_balances] in H.
  - left. split; [constructor | by inversion H].
  - apply result_bind_inv in H as (md & Hmd & H).
    apply result_bind_inv in H as (sym & Hsym & H).
    assert (Hof : symbol_of b = Some sym).
    { unfold symbol_of. by rewrite Hmd, result_bind_ok, Hsym. }
    destruct (eq_str sym "APT") eqn:E.
    + right. exists [], b, bs. apply eq_str_true in E as ->.
      repeat split; [constructor | exact Hof |].
      destruct b; try discriminate. cbn in H |- *.
      destruct (d !! "amount_in_usd"); by inversion H.
    + apply eq_str_false_inv in E.
      assert (Hb : other_symbol b) by (by exists sym).
      destruct (IH H) as [[Hall ->] | (before & b' & after & -> & Hbefore & Hb' & ->)].
      * left. split; [by constructor | done].
      * right. exists (b :: before), b', after. repeat split; [by constructor | done].
Qed.

(** X17: the net worth is only ever extracted in two ways: every entry has
    a symbol other than ["APT"] and the net worth is 0, or the entries
    before the first ["APT"] entry all have such a symbol and the net worth
    is what that entry holds as [amount_in_usd], any JSON value, 0 without
    the field. *)
Theorem net_worth_comes_from_first_apt (p : json) (bs : list json) (nw : json) :
  subscript p "latest_balances" = Ok (JList bs) →
  extract_onchain_net_worth p = Ok nw →
  (Forall other_symbol bs ∧ nw = JInt 0) ∨
  (∃ before b after,
     bs = before ++ b :: after ∧ Forall other_symbol before ∧ is_apt b ∧
     nw = usd_amount b).
Proof.
  intros Hbs H. rewrite (net_worth_balances _ _ Hbs) in H. by apply scan_balances_ok.
Qed.

Lemma net_worth_comes_from_first_apt_witness :
  (Forall other_symbol [Samples.balance "USDC" (JInt 3); Samples.balance "APT" (JStr "1.5")]
   ∧ JStr "1.5" = JInt 0) ∨
  (∃ before b after,
     [Samples.balance "USDC" (JInt 3); Samples.balance "APT" (JStr "1.5")]
     = before ++ b :: after ∧
     Forall other_symbol before ∧ is_apt b ∧ JStr "1.5" = usd_amount b).
Proof.
  apply (net_worth_comes_from_first_apt
           (Samples.balances [Samples.balance "USDC" (JInt 3);
                              Samples.balance "APT" (JStr "1.5")])); reflexivity.
Defined.

(** ** Rows numpy cannot build *)

Section Arrays.

Context (upstream : fetcher → string → http_outcome).
Context (credibility_model influencer_model : list pyobj → result ndarray).
Context (input : BerryCalculationInput).

#[local] Abbreviation address := (account_address input).
#[local] Abbreviation endpoint :=
  (calculate_berries_endpoint upstream credibility_model influencer_model input).

(** X18: a net worth that is a list, as when [amount_in_usd] holds one,
    cannot be put in a row next to 5000: building the array raises
    [ValueError], neither model is called, and the response is the 500 of
    the last [except] clause. *)
Theorem list_valued_net_worth_is_an_internal_error
    (s1 s2 : Z) (p b al ac : json) (t : totals) (items : list json) :
  upstream UserPosts address = Response s1 (Some p) →
  is_success s1 = true →
  aggregate_user_posts p = Ok t →
  average_per_day (total_likes t) (total_posts t) = Ok al →
  average_per_day (total_comments t) (total_posts t) = Ok ac →
  upstream CoinBalances address = Response s2 (Some b) →
  is_success s2 = true →
  extract_onchain_net_worth b = Ok (JList items) →
  np_array [PyJ (JList items); PyJ (JInt 5000)] = Raise ValueError ∧
  endpoint
  = ([EvGet UserPosts address; EvGet CoinBalances address], internal_server_error).
Proof.
  intros Hup1 Hs1 Hagg Hal Hac Hup2 Hs2 Hnw.
  assert (Hrow : np_array [PyJ (JList items); PyJ (JInt 5000)] = Raise ValueError).
  { apply np_array_sequence_before_scalar; [apply common_shape_not_scalar | done]. }
  split; [exact Hrow|].
  open_endpoint. rewrite Hup1, Hs1. cbn. rewrite Hagg. cbn. rewrite Hal. cbn.
  rewrite Hac. cbn. rewrite Hup2, Hs2. cbn. rewrite Hnw. cbn. rewrite Hrow. by cbn.
Qed.

(** X19: a credibility prediction that reduces to an array, not to a scalar,
    cannot be put in the influencer row next to the totals: building the
    array raises [ValueError], the influencer model is not called, and the
    response is the 500 of the last [except] clause. *)
Theorem array_valued_credibility_is_an_internal_error
    (s1 s2 : Z) (p b nw al ac : json) (t : totals) (pc : ndarray) (xs : list ndarray) :
  upstream UserPosts address = Response s1 (Some p) →
  is_success s1 = true →
  aggregate_user_posts p = Ok t →
  average_per_day (total_likes t) (total_posts t) = Ok al →
  average_per_day (total_comments t) (total_posts t) = Ok ac →
  upstream CoinBalances address = Response s2 (Some b) →
  is_success s2 = true →
  extract_onchain_net_worth b = Ok nw →
  np_array [PyJ nw; PyJ (JInt 5000)] = Ok [PyJ nw; PyJ (JInt 5000)] →
  credibility_model [PyJ nw; PyJ (JInt 5000)] = Ok pc →
  reduce_prediction pc = Ok (NdArray xs) →
  endpoint
  = ([EvGet UserPosts address; EvGet CoinBalances address;
      EvPredict Credibility [PyJ nw; PyJ (JInt 5000)]],
     internal_server_error).
Proof.
  intros Hup1 Hs1 Hagg Hal Hac Hup2 Hs2 Hnw Hrow Hcm Hrc.
  open_endpoint. rewrite Hup1, Hs1. cbn. rewrite Hagg. cbn. rewrite Hal. cbn.
  rewrite Hac. cbn. rewrite Hup2, Hs2. cbn. rewrite Hnw. cbn. rewrite Hrow. cbn.
  rewrite Hcm. cbn. rewrite Hrc. cbn. rewrite berries_input_features. cbn.
  rewrite np_array_sequence_after_scalar; [by cbn | done |].
  do 5 apply Exists_cons_tl. apply Exists_cons_hd. apply common_shape_not_scalar.
Qed.

End Arrays.

Lemma list_valued_net_worth_is_an_internal_error_witness :
  calculate_berries_endpoint
    (Samples.serve Samples.one_profile_two_posts
       (Samples.balances [Samples.balance "APT" (JList [JInt 1; JInt 2])]))
    (Samples.constant_1d Samples.half) (Samples.constant_2d Samples.seven) Samples.alice
  = ([EvGet UserPosts "0xa11ce"; EvGet CoinBalances "0xa11ce"], internal_server_error).
Proof.
  apply (list_valued_net_worth_is_an_internal_error
           (Samples.serve Samples.one_profile_two_posts
              (Samples.balances [Samples.balance "APT" (JList [JInt 1; JInt 2])]))
           (Samples.constant_1d Samples.half) (Samples.constant_2d Samples.seven)
           Samples.alice 200 200 Samples.one_profile_two_posts
           (Samples.balances [Samples.balance "APT" (JList [JInt 1; JInt 2])])
           (JFloat (float_of_int 15)) (JFloat (float_of_int 2)) (Totals 120 30 4 2)
           [JInt 1; JInt 2]); reflexivity.
Defined.

Lemma array_valued_credibility_is_an_internal_error_witness :
  calculate_berries_endpoint
    (Samples.serve Samples.one_profile_two_posts Samples.one_apt_500)
    (λ _, Ok (NdArray [NdArray [NdArray [NdItem Samples.half]]]))
    (Samples.constant_2d Samples.seven) Samples.alice
  = ([EvGet UserPosts "0xa11ce"; EvGet CoinBalances "0xa11ce";
      EvPredict Credibility [PyJ (JInt 500); PyJ (JInt 5000)]],
     internal_server_error).
Proof.
  apply (array_valued_credibility_is_an_internal_error
           (Samples.serve Samples.one_profile_two_posts Samples.one_apt_500)
           (λ _, Ok (NdArray [NdArray [NdArray [NdItem Samples.half]]]))
           (Samples.constant_2d Samples.seven) Samples.alice
           200 200 Samples.one_profile_two_posts Samples.one_apt_500 (JInt 500)
           (JFloat (float_of_int 15)) (JFloat (float_of_int 2)) (Totals 120 30 4 2)
           (NdArray [NdArray [NdArray [NdItem Samples.half]]]) [NdItem Samples.half]);
    reflexivity.
Defined.
